(** * A shallow embedding of [ucxx/core.py] (python/ucxx)

    The module is a coordination layer on top of the [ucx_api] transport.
    We embed the pieces the specification talks about:
    - the wire format of the handshake ([struct.pack("QQQ", ...)]),
    - coroutines ([async def]) as a small free monad [co] with the
      operations the code uses: reading / writing the object state,
      raising, posting a transport request and awaiting it,
    - [exchange_peer_info], the two endpoint creation paths,
    - the [Endpoint] methods [abort], [closed], [send], [send_multi],
      [recv] and [close_after_n_recv],
    - [ApplicationContext.continuous_ucx_progress],
      [start_notifier_thread] and [_check_enable_delayed_submission].

    The helper [hash64bits] lives in [ucxx/utils.py]; every statement is
    made for an arbitrary function in its place (a section variable). *)

From Stdlib Require Import ZArith String List Bool Lia.
Import ListNotations.
Open Scope Z_scope.

(** ** Exceptions raised along the modelled paths *)
Inductive exc : Type :=
| RuntimeError                 (* checksum mismatch in exchange_peer_info *)
| StructError                  (* struct.pack / struct.unpack failure *)
| AttributeError               (* attribute access on None *)
| TypeError                    (* subscription of None *)
| NameError (name : string)    (* unresolved global name *)
| UCXCanceled
| UCXCloseError
| UCXError
| UCXConnectionResetError.

(** Arguments of [hash64bits] (a variadic function): the code passes strings, the
    [os.urandom(16)] seed (bytes) and Python integers. *)
Inductive hash_arg : Type :=
| HStr (s : string)
| HBytes (b : list Z)
| HInt (z : Z).

(** ** The handshake wire format: [struct.pack("QQQ", ...)]

    A byte is an 8-bit [Z].  Format code [Q] is an unsigned 64-bit
    integer in native (little-endian) byte order; [struct.pack] raises
    [struct.error] for a value outside [0, 2^64). *)
Fixpoint le_encode (n : nat) (v : Z) : list Z :=
  match n with
  | O => []
  | S n' => Z.land v 255 :: le_encode n' (Z.shiftr v 8)
  end.

Fixpoint le_decode (bs : list Z) : Z :=
  match bs with
  | [] => 0
  | b :: bs' => b + 256 * le_decode bs'
  end.

Definition pack_Q (v : Z) : option (list Z) :=
  if (0 <=? v) && (v <? 2 ^ 64) then Some (le_encode 8 v) else None.

Definition pack_QQQ (a b c : Z) : option (list Z) :=
  match pack_Q a, pack_Q b, pack_Q c with
  | Some x, Some y, Some z => Some (x ++ y ++ z)
  | _, _, _ => None
  end.

(** [struct.unpack("QQQ", buf)] needs exactly 24 bytes. *)
Definition unpack_QQQ (bs : list Z) : option (Z * Z * Z) :=
  if Nat.eqb (length bs) 24 then
    Some (le_decode (firstn 8 bs), le_decode (firstn 8 (skipn 8 bs)),
          le_decode (skipn 16 bs))
  else None.

(** ** Coroutines

    A coroutine over an object state [S] returning [A].  [Post] is a call
    such as [ep.stream_send(buf)] or [ep.tag_send(buf, tag)] that hands a
    request to the transport; [Wait] is [await req.wait()] on the request
    posted last: the caller is suspended, and resumes with the outcome of
    the request.  Other coroutines may run while it is suspended. *)
Inductive request : Type :=
| StreamSend (data : list Z)
| StreamRecv (nbytes : nat)
| TagSend (data : list Z) (tag : Z)
| TagSendMulti (bufs : list (list Z)) (tag : Z)
| TagRecv (nbytes : nat) (tag : Z).

Inductive outcome : Type :=
| Completed (data : list Z)
| Canceled
| Failed (e : exc).

Inductive co (S A : Type) : Type :=
| Ret (a : A)
| Throw (e : exc)
| Get (k : S -> co S A)
| Put (s : S) (k : co S A)
| Post (r : request) (k : co S A)
| Wait (k : outcome -> co S A).

Arguments Ret {S A} a.
Arguments Throw {S A} e.
Arguments Get {S A} k.
Arguments Put {S A} s k.
Arguments Post {S A} r k.
Arguments Wait {S A} k.

Fixpoint bind {S A B} (m : co S A) (f : A -> co S B) : co S B :=
  match m with
  | Ret a => f a
  | Throw e => Throw e
  | Get k => Get (fun s => bind (k s) f)
  | Put s k => Put s (bind k f)
  | Post r k => Post r (bind k f)
  | Wait k => Wait (fun o => bind (k o) f)
  end.

Notation "x <- m ;; f" := (bind m (fun x => f))
  (at level 61, m at next level, right associativity).
Notation "m ;;; f" := (bind m (fun _ => f))
  (at level 61, right associativity).

(** [try: m except e: h(e)] *)
Fixpoint catch {S A} (m : co S A) (h : exc -> co S A) : co S A :=
  match m with
  | Ret a => Ret a
  | Throw e => h e
  | Get k => Get (fun s => catch (k s) h)
  | Put s k => Put s (catch k h)
  | Post r k => Post r (catch k h)
  | Wait k => Wait (fun o => catch (k o) h)
  end.

Definition get {S} : co S S := Get Ret.
Definition put {S} (s : S) : co S unit := Put s (Ret tt).
Definition modify {S} (f : S -> S) : co S unit := Get (fun s => Put (f s) (Ret tt)).

(** [await req.wait()]: the completed request's value, or the
    transport's exception ([UCXCanceled] for a canceled request). *)
Definition await_req {S} : co S (list Z) :=
  Wait (fun o => match o with
                 | Completed d => Ret d
                 | Canceled => Throw UCXCanceled
                 | Failed e => Throw e
                 end).

(** *** Running one coroutine against its environment

    At its [i]-th suspension the environment supplies what the rest of
    the program did meanwhile (a change of the object state) and the
    outcome of the awaited request. *)
Inductive event : Type :=
| EvPost (r : request)
| EvWait.

Inductive status (A : Type) : Type :=
| Returned (a : A)
| Raised (e : exc)
| Suspended.

Arguments Returned {A} a.
Arguments Raised {A} e.
Arguments Suspended {A}.

Fixpoint run {S A} (p : co S A) (s : S) (env : list ((S -> S) * outcome))
  : list event * S * status A :=
  match p with
  | Ret a => ([], s, Returned a)
  | Throw e => ([], s, Raised e)
  | Get k => run (k s) s env
  | Put s' k => run k s' env
  | Post r k => let '(tr, s', st) := run k s env in (EvPost r :: tr, s', st)
  | Wait k =>
      match env with
      | [] => ([EvWait], s, Suspended)
      | (f, o) :: env' =>
          let '(tr, s', st) := run (k o) (f s) env' in (EvWait :: tr, s', st)
      end
  end.

Definition trace_of {S A} (r : list event * S * status A) : list event :=
  fst (fst r).
Definition state_of {S A} (r : list event * S * status A) : S :=
  snd (fst r).
Definition status_of {S A} (r : list event * S * status A) : status A :=
  snd r.

(** *** Two peers talking over one stream connection

    The transport below the handshake: each side's [stream_send] bytes are
    appended to the other side's incoming stream and the send completes;
    a [stream_recv] of [n] bytes completes once [n] bytes are available.
    The scheduler runs the first side while it can make progress, and the
    second one otherwise. *)
Definition step_side {A} (p : co unit A) (pending : option request)
  (inbox : list Z) : option (co unit A * option request * list Z * list Z) :=
  match p with
  | Ret _ | Throw _ => None
  | Get k => Some (k tt, pending, inbox, [])
  | Put _ k => Some (k, pending, inbox, [])
  | Post r k =>
      Some (k, Some r, inbox, match r with StreamSend d => d | _ => [] end)
  | Wait k =>
      match pending with
      | Some (StreamSend _) => Some (k (Completed []), None, inbox, [])
      | Some (StreamRecv n) =>
          if Nat.leb n (length inbox)
          then Some (k (Completed (firstn n inbox)), None, skipn n inbox, [])
          else None
      | _ => None
      end
  end.

Definition final {A} (p : co unit A) : status A :=
  match p with
  | Ret a => Returned a
  | Throw e => Raised e
  | _ => Suspended
  end.

Fixpoint pair_run {A B} (fuel : nat) (a : co unit A) (pa : option request)
  (b : co unit B) (pb : option request) (to_a to_b : list Z)
  : status A * status B :=
  match fuel with
  | O => (final a, final b)
  | S fuel' =>
      match step_side a pa to_a with
      | Some (a', pa', to_a', out) => pair_run fuel' a' pa' b pb to_a' (to_b ++ out)
      | None =>
          match step_side b pb to_b with
          | Some (b', pb', to_b', out) => pair_run fuel' a pa b' pb' (to_a ++ out) to_b'
          | None => (final a, final b)
          end
      end
  end.

(** ** Object state *)

(** The transport's endpoint ([ucx_api.UCXEndpoint]): its handle, whether
    it is alive, and the error [raise_on_error()] would raise. *)
Record UCXEndpoint : Type := mk_UCXEndpoint {
  handle : Z;
  is_alive : bool;
  ep_error : option exc
}.

(** The transport's worker: the tags for which a message is queued
    ([tag_probe]) and whether Python-future notification is enabled. *)
Record UCXWorker : Type := mk_UCXWorker {
  queued_tags : list Z;
  python_future_enabled : bool
}.

Definition tag_probe (w : UCXWorker) (tag : Z) : bool :=
  existsb (Z.eqb tag) (queued_tags w).

Definition is_python_future_enabled (w : UCXWorker) : bool :=
  python_future_enabled w.

(** Event loops are identified by a number. *)
Definition event_loop := nat.

(** [ThreadMode(worker, loop, polling_mode=...)] / [PollingMode(worker, loop)]
    from [ucxx/continuous_ucx_progress.py]. *)
Inductive progress_kind : Type :=
| ThreadMode (polling_mode : bool)
| PollingMode.

Record ProgressTask : Type := mk_ProgressTask {
  task_kind : progress_kind;
  task_event_loop : event_loop
}.

(** Objects a Python name can be bound to, as far as name resolution in
    [start_notifier_thread] is concerned. *)
Inductive pyobj : Type :=
| PyModuleObj
| PyFunctionObj
| PyClassObj
| PyLoopObj (l : event_loop)
| PyOtherObj.

(** [threading.Thread(target=_notifierThread, args=(loop, ...), name=...)] *)
Record NotifierThread : Type := mk_NotifierThread {
  thread_loop_arg : pyobj;
  thread_name : string;
  thread_started : bool
}.

Record ApplicationContext : Type := mk_ApplicationContext {
  progress_tasks : list ProgressTask;
  progress_mode : string;
  notifier_thread_q : option (list string);
  notifier_thread : option NotifierThread;
  worker : UCXWorker
}.

Record tag_set : Type := mk_tag_set {
  msg_send : Z;
  msg_recv : Z;
  ctrl_send : Z;
  ctrl_recv : Z
}.

Record Endpoint : Type := mk_Endpoint {
  _ep : option UCXEndpoint;
  _ctx : option ApplicationContext;
  _send_count : Z;
  _recv_count : Z;
  _finished_recv_count : Z;
  _shutting_down_peer : bool;
  _close_after_n_recv : option Z;
  _tags : option tag_set
}.

(** [Endpoint.__init__] *)
Definition new_Endpoint (endpoint : UCXEndpoint) (ctx : ApplicationContext)
  (tags : option tag_set) : Endpoint :=
  {| _ep := Some endpoint; _ctx := Some ctx; _send_count := 0; _recv_count := 0;
     _finished_recv_count := 0; _shutting_down_peer := false;
     _close_after_n_recv := None; _tags := tags |}.

(** Field updates. *)
Definition abort_state (s : Endpoint) : Endpoint :=
  {| _ep := None; _ctx := None; _send_count := _send_count s;
     _recv_count := _recv_count s; _finished_recv_count := _finished_recv_count s;
     _shutting_down_peer := _shutting_down_peer s;
     _close_after_n_recv := _close_after_n_recv s; _tags := _tags s |}.

Definition incr_send_count (s : Endpoint) : Endpoint :=
  {| _ep := _ep s; _ctx := _ctx s; _send_count := _send_count s + 1;
     _recv_count := _recv_count s; _finished_recv_count := _finished_recv_count s;
     _shutting_down_peer := _shutting_down_peer s;
     _close_after_n_recv := _close_after_n_recv s; _tags := _tags s |}.

Definition incr_recv_count (s : Endpoint) : Endpoint :=
  {| _ep := _ep s; _ctx := _ctx s; _send_count := _send_count s;
     _recv_count := _recv_count s + 1; _finished_recv_count := _finished_recv_count s;
     _shutting_down_peer := _shutting_down_peer s;
     _close_after_n_recv := _close_after_n_recv s; _tags := _tags s |}.

Definition incr_finished_recv_count (s : Endpoint) : Endpoint :=
  {| _ep := _ep s; _ctx := _ctx s; _send_count := _send_count s;
     _recv_count := _recv_count s; _finished_recv_count := _finished_recv_count s + 1;
     _shutting_down_peer := _shutting_down_peer s;
     _close_after_n_recv := _close_after_n_recv s; _tags := _tags s |}.

Definition set_close_after_n_recv (s : Endpoint) (n : option Z) : Endpoint :=
  {| _ep := _ep s; _ctx := _ctx s; _send_count := _send_count s;
     _recv_count := _recv_count s; _finished_recv_count := _finished_recv_count s;
     _shutting_down_peer := _shutting_down_peer s;
     _close_after_n_recv := n; _tags := _tags s |}.

(** Python's [hash] of an [int] (user tags are integers): the value modulo
    the Mersenne prime [2^61 - 1], with the sign kept and [-1] mapped to [-2]. *)
Definition py_hash_modulus : Z := 2 ^ 61 - 1.

Definition py_hash_int (n : Z) : Z :=
  let m := Z.abs n mod py_hash_modulus in
  let h := if n <? 0 then - m else m in
  if h =? -1 then -2 else h.

(** [Endpoint.closed()] *)
Definition closed (s : Endpoint) : bool :=
  match _ep s with
  | None => true
  | Some e => negb (is_alive e)
  end.

(** [Endpoint.abort()] *)
Definition abort : co Endpoint unit := modify abort_state.

(** [self._ep.raise_on_error()] *)
Definition ep_raise_on_error : co Endpoint unit :=
  s <- get ;;
  match _ep s with
  | None => Throw AttributeError
  | Some e => match ep_error e with None => Ret tt | Some x => Throw x end
  end.

(** [self._tags[key]] *)
Definition tag_lookup (key : tag_set -> Z) : co Endpoint Z :=
  s <- get ;;
  match _tags s with
  | None => Throw TypeError
  | Some ts => Ret (key ts)
  end.

(** [Endpoint.close_after_n_recv(n, count_from_ep_creation=False)] *)
Definition close_after_n_recv (n : Z) (count_from_ep_creation : bool)
  : co Endpoint unit :=
  s <- get ;;
  let n := if count_from_ep_creation then n else n + _finished_recv_count s in
  match _close_after_n_recv s with
  | Some _ => Throw UCXError
  | None =>
      if n =? _finished_recv_count s then abort
      else if _finished_recv_count s <? n then put (set_close_after_n_recv s (Some n))
      else Throw UCXError
  end.

(** ** [ApplicationContext.continuous_ucx_progress]

    The membership test [loop in self.progress_tasks] compares the event
    loop with the registered [ProgressTask] objects. *)

(** Modelled from the spec: the equality of a [ProgressTask] with an event
    loop, defined in [ucxx/continuous_ucx_progress.py] (not part of the
    embedded sources).  Section 4.5 of the specification keys each
    progress binding by its scheduler: a task stands for the event loop
    it was created for. *)
Definition task_eq_loop (t : ProgressTask) (loop : event_loop) : bool :=
  Nat.eqb (task_event_loop t) loop.

Definition loop_in_tasks (loop : event_loop) (tasks : list ProgressTask) : bool :=
  existsb (fun t => task_eq_loop t loop) tasks.

(** The [if]/[elif] chain on [self.progress_mode]: an unknown mode leaves
    [task] unbound, which raises when it is appended. *)
Definition make_progress_task (mode : string) (loop : event_loop)
  : option ProgressTask :=
  if String.eqb mode "thread" then Some (mk_ProgressTask (ThreadMode false) loop)
  else if String.eqb mode "thread-polling" then Some (mk_ProgressTask (ThreadMode true) loop)
  else if String.eqb mode "polling" then Some (mk_ProgressTask PollingMode loop)
  else None.

Definition with_progress_tasks (c : ApplicationContext) (ts : list ProgressTask)
  : ApplicationContext :=
  {| progress_tasks := ts; progress_mode := progress_mode c;
     notifier_thread_q := notifier_thread_q c; notifier_thread := notifier_thread c;
     worker := worker c |}.

(** [loop] is the resolved [event_loop] argument ([asyncio.get_event_loop()]
    when it is [None]).  Python raises [UnboundLocalError] for an unknown
    mode; we report it as a [NameError] on [task]. *)
Definition continuous_ucx_progress (loop : event_loop) : co ApplicationContext unit :=
  c <- get ;;
  if loop_in_tasks loop (progress_tasks c) then Ret tt
  else
    match make_progress_task (progress_mode c) loop with
    | None => Throw (NameError "task")
    | Some task => put (with_progress_tasks c (progress_tasks c ++ [task]))
    end.

(** [ApplicationContext._check_progress_mode] for an explicit argument. *)
Definition valid_progress_modes : list string := ["polling"; "thread"; "thread-polling"]%string.

Definition count_loop (loop : event_loop) (tasks : list ProgressTask) : nat :=
  length (filter (fun t => task_eq_loop t loop) tasks).

(** ** [ApplicationContext.start_notifier_thread]

    A name that a function does not assign is looked up in the module's
    globals and then in the builtins (the class body is not a scope of its
    methods). *)
Definition namespace := list (string * pyobj).

Fixpoint ns_lookup (x : string) (ns : namespace) : option pyobj :=
  match ns with
  | [] => None
  | (y, v) :: ns' => if String.eqb x y then Some v else ns_lookup x ns'
  end.

Definition resolve_name (x : string) (scopes : list namespace) : option pyobj :=
  fold_right (fun ns acc => match ns_lookup x ns with
                            | Some v => Some v
                            | None => acc
                            end) None scopes.

(** The global names bound by [ucxx/core.py]: module attributes, imports,
    module-level assignments, functions and classes. *)
Definition core_module_globals : namespace :=
  [("__name__", PyOtherObj); ("__doc__", PyOtherObj); ("__file__", PyOtherObj);
   ("__package__", PyOtherObj); ("__spec__", PyOtherObj); ("__loader__", PyOtherObj);
   ("__builtins__", PyModuleObj); ("__cached__", PyOtherObj);
   ("array", PyModuleObj); ("asyncio", PyModuleObj); ("gc", PyModuleObj);
   ("logging", PyModuleObj); ("os", PyModuleObj); ("struct", PyModuleObj);
   ("threading", PyModuleObj); ("weakref", PyModuleObj);
   ("partial", PyClassObj); ("close_fd", PyFunctionObj); ("Queue", PyClassObj);
   ("ucx_api", PyModuleObj); ("Array", PyClassObj);
   ("UCXBaseException", PyClassObj); ("UCXCanceled", PyClassObj);
   ("UCXCloseError", PyClassObj); ("UCXConnectionResetError", PyClassObj);
   ("UCXError", PyClassObj); ("PollingMode", PyClassObj); ("ThreadMode", PyClassObj);
   ("hash64bits", PyFunctionObj); ("logger", PyOtherObj); ("_ctx", PyOtherObj);
   ("_get_ctx", PyFunctionObj); ("exchange_peer_info", PyFunctionObj);
   ("_listener_handler_coroutine", PyFunctionObj); ("_listener_handler", PyFunctionObj);
   ("_run_request_notifier", PyFunctionObj); ("_notifier_coroutine", PyFunctionObj);
   ("_notifierThread", PyFunctionObj); ("ApplicationContext", PyClassObj);
   ("Listener", PyClassObj); ("Endpoint", PyClassObj); ("init", PyFunctionObj);
   ("reset", PyFunctionObj); ("stop_notifier_thread", PyFunctionObj);
   ("get_ucx_version", PyFunctionObj); ("progress", PyFunctionObj);
   ("get_config", PyFunctionObj); ("create_listener", PyFunctionObj);
   ("create_endpoint", PyFunctionObj);
   ("create_endpoint_from_worker_address", PyFunctionObj);
   ("continuous_ucx_progress", PyFunctionObj); ("get_ucp_worker", PyFunctionObj)]%string.

(** Python's builtins namespace. *)
Definition python_builtins : namespace :=
  map (fun x => (x, PyOtherObj))
  ["abs"; "aiter"; "all"; "anext"; "any"; "ascii"; "bin"; "bool"; "breakpoint";
   "bytearray"; "bytes"; "callable"; "chr"; "classmethod"; "compile"; "complex";
   "copyright"; "credits"; "delattr"; "dict"; "dir"; "divmod"; "enumerate"; "eval";
   "exec"; "exit"; "filter"; "float"; "format"; "frozenset"; "getattr"; "globals";
   "hasattr"; "hash"; "help"; "hex"; "id"; "input"; "int"; "isinstance";
   "issubclass"; "iter"; "len"; "license"; "list"; "locals"; "map"; "max";
   "memoryview"; "min"; "next"; "object"; "oct"; "open"; "ord"; "pow"; "print";
   "property"; "quit"; "range"; "repr"; "reversed"; "round"; "set"; "setattr";
   "slice"; "sorted"; "staticmethod"; "str"; "sum"; "super"; "tuple"; "type";
   "vars"; "zip"; "__import__"; "__build_class__"; "__debug__"; "__doc__";
   "__loader__"; "__name__"; "__package__"; "__spec__"; "Ellipsis";
   "NotImplemented"; "None"; "True"; "False";
   "ArithmeticError"; "AssertionError"; "AttributeError"; "BaseException";
   "BaseExceptionGroup"; "BlockingIOError"; "BrokenPipeError"; "BufferError";
   "BytesWarning"; "ChildProcessError"; "ConnectionAbortedError";
   "ConnectionError"; "ConnectionRefusedError"; "ConnectionResetError";
   "DeprecationWarning"; "EOFError"; "EncodingWarning"; "EnvironmentError";
   "Exception"; "ExceptionGroup"; "FileExistsError"; "FileNotFoundError";
   "FloatingPointError"; "FutureWarning"; "GeneratorExit"; "IOError";
   "ImportError"; "ImportWarning"; "IndentationError"; "IndexError";
   "InterruptedError"; "IsADirectoryError"; "KeyError"; "KeyboardInterrupt";
   "LookupError"; "MemoryError"; "ModuleNotFoundError"; "NameError";
   "NotADirectoryError"; "NotImplementedError"; "OSError"; "OverflowError";
   "PendingDeprecationWarning"; "PermissionError"; "ProcessLookupError";
   "RecursionError"; "ReferenceError"; "ResourceWarning"; "RuntimeError";
   "RuntimeWarning"; "StopAsyncIteration"; "StopIteration"; "SyntaxError";
   "SyntaxWarning"; "SystemError"; "SystemExit"; "TabError"; "TimeoutError";
   "TypeError"; "UnboundLocalError"; "UnicodeDecodeError"; "UnicodeEncodeError";
   "UnicodeError"; "UnicodeTranslateError"; "UnicodeWarning"; "UserWarning";
   "ValueError"; "Warning"; "ZeroDivisionError"]%string.

(** Scopes seen by [loop] inside [start_notifier_thread]: it is neither a
    parameter nor assigned in the method, so it is a global name. *)
Definition start_notifier_thread_scopes : list namespace :=
  [core_module_globals; python_builtins].

Definition with_notifier_thread_q (c : ApplicationContext) (q : option (list string))
  : ApplicationContext :=
  {| progress_tasks := progress_tasks c; progress_mode := progress_mode c;
     notifier_thread_q := q; notifier_thread := notifier_thread c; worker := worker c |}.

Definition with_notifier_thread (c : ApplicationContext) (t : option NotifierThread)
  : ApplicationContext :=
  {| progress_tasks := progress_tasks c; progress_mode := progress_mode c;
     notifier_thread_q := notifier_thread_q c; notifier_thread := t; worker := worker c |}.

Definition start_notifier_thread : co ApplicationContext unit :=
  c <- get ;;
  if is_python_future_enabled (worker c) then
    (* self.notifier_thread_q = Queue() *)
    put (with_notifier_thread_q c (Some [])) ;;;
    (* the [args] tuple is evaluated first, starting with [loop] *)
    match resolve_name "loop" start_notifier_thread_scopes with
    | None => Throw (NameError "loop")
    | Some loop =>
        c <- get ;;
        (* self.notifier_thread = threading.Thread(...); .start() *)
        put (with_notifier_thread c
               (Some (mk_NotifierThread loop "UCX-Py Async Notifier Thread" true)))
    end
  else Ret tt.

(** ** Configuration checks of [ApplicationContext]

    The static methods [_check_enable_*] are small straight-line Python
    functions; we embed their bodies in a fragment of Python: expressions,
    assignment, [if]/[else] and [return].  A call evaluates the body in
    a frame holding the parameters; a body that ends without executing
    [return] makes the call return [None]. *)
Inductive pyval : Type :=
| PyNone
| PyBool (b : bool)
| PyStr (s : string).

Inductive expr : Type :=
| EVar (x : string)
| EConst (v : pyval)
| EIsNone (e : expr)                   (* e is None *)
| EInEnviron (key : string)            (* key in os.environ *)
| EEnvironGet (key : string)           (* os.environ[key] *)
| EEq (e1 e2 : expr)                   (* e1 == e2 *)
| ENe (e1 e2 : expr)                   (* e1 != e2 *)
| ECond (e_then c e_else : expr).      (* e_then if c else e_else *)

Inductive stmt : Type :=
| SPass
| SSeq (s1 s2 : stmt)
| SAssign (x : string) (e : expr)
| SIf (c : expr) (s1 s2 : stmt)
| SReturn (e : expr).

Definition environ := list (string * string).
Definition frame := list (string * pyval).

Fixpoint assoc_lookup {V} (x : string) (l : list (string * V)) : option V :=
  match l with
  | [] => None
  | (y, v) :: l' => if String.eqb x y then Some v else assoc_lookup x l'
  end.

Definition pyval_eqb (v w : pyval) : bool :=
  match v, w with
  | PyNone, PyNone => true
  | PyBool a, PyBool b => Bool.eqb a b
  | PyStr a, PyStr b => String.eqb a b
  | _, _ => false
  end.

Definition truthy (v : pyval) : bool :=
  match v with
  | PyNone => false
  | PyBool b => b
  | PyStr s => negb (String.eqb s "")
  end.

(** [None] is a raised exception ([NameError] or [KeyError]). *)
Fixpoint eval (env : environ) (fr : frame) (e : expr) : option pyval :=
  match e with
  | EVar x => assoc_lookup x fr
  | EConst v => Some v
  | EIsNone e1 =>
      option_map (fun v => PyBool (pyval_eqb v PyNone)) (eval env fr e1)
  | EInEnviron k => Some (PyBool (match assoc_lookup k env with Some _ => true | None => false end))
  | EEnvironGet k => option_map PyStr (assoc_lookup k env)
  | EEq e1 e2 =>
      match eval env fr e1, eval env fr e2 with
      | Some v, Some w => Some (PyBool (pyval_eqb v w))
      | _, _ => None
      end
  | ENe e1 e2 =>
      match eval env fr e1, eval env fr e2 with
      | Some v, Some w => Some (PyBool (negb (pyval_eqb v w)))
      | _, _ => None
      end
  | ECond e1 c e2 =>
      match eval env fr c with
      | Some vc => if truthy vc then eval env fr e1 else eval env fr e2
      | None => None
      end
  end.

(** The frame after the statement, and the value of a [return] if one
    was executed. *)
Fixpoint exec (env : environ) (fr : frame) (s : stmt) : option (frame * option pyval) :=
  match s with
  | SPass => Some (fr, None)
  | SSeq s1 s2 =>
      match exec env fr s1 with
      | Some (fr', None) => exec env fr' s2
      | r => r
      end
  | SAssign x e =>
      match eval env fr e with
      | Some v => Some ((x, v) :: fr, None)
      | None => None
      end
  | SIf c s1 s2 =>
      match eval env fr c with
      | Some v => if truthy v then exec env fr s1 else exec env fr s2
      | None => None
      end
  | SReturn e =>
      match eval env fr e with
      | Some v => Some (fr, Some v)
      | None => None
      end
  end.

Definition call (params : list string) (body : stmt) (args : list pyval) (env : environ)
  : option pyval :=
  match exec env (combine params args) body with
  | None => None
  | Some (_, Some v) => Some v
  | Some (_, None) => Some PyNone
  end.

(** [ApplicationContext._check_enable_delayed_submission(enable_delayed_submission)] *)
Definition _check_enable_delayed_submission_body : stmt :=
  SIf (EIsNone (EVar "enable_delayed_submission"))
    (SIf (EInEnviron "UCXPY_ENABLE_DELAYED_SUBMISSION")
       (SAssign "enable_delayed_submission"
          (ECond (EConst (PyBool false))
                 (EEq (EEnvironGet "UCXPY_ENABLE_DELAYED_SUBMISSION") (EConst (PyStr "0")))
                 (EConst (PyBool true))))
       (SAssign "enable_delayed_submission" (EConst (PyBool true))))
    SPass.

Definition _check_enable_delayed_submission (enable_delayed_submission : pyval)
  (env : environ) : option pyval :=
  call ["enable_delayed_submission"%string] _check_enable_delayed_submission_body
       [enable_delayed_submission] env.

(** The [enable_delayed_submission] keyword argument that
    [ApplicationContext.__init__] passes to [ucx_api.UCXWorker]: the value
    returned by the check above ([None] of the option: the check raised,
    and so does the constructor). *)
Definition init_worker_enable_delayed_submission (enable_delayed_submission : pyval)
  (env : environ) : option pyval :=
  _check_enable_delayed_submission enable_delayed_submission env.

(** ** More of [ApplicationContext] *)

(** [ApplicationContext._check_progress_mode(progress_mode)]: the mode it
    returns, or [None] when it raises [ValueError].  A [None] argument is
    replaced by [os.environ["UCXPY_PROGRESS_MODE"]] when that variable is
    set, and by ["thread"] otherwise; the result must be a string equal to
    one of [valid_progress_modes]. *)
Definition _check_progress_mode (progress_mode : pyval) (env : environ) : option string :=
  let progress_mode :=
    match progress_mode with
    | PyNone =>
        match assoc_lookup "UCXPY_PROGRESS_MODE" env with
        | Some v => PyStr v
        | None => PyStr "thread"
        end
    | v => v
    end in
  match progress_mode with
  | PyStr m => if existsb (String.eqb m) valid_progress_modes then Some m else None
  | _ => None
  end.


(** [ApplicationContext.stop_notifier_thread()]: a [Queue] and a [Thread]
    object are always truthy, so the test is that both attributes are set;
    [put("shutdown")] appends to the queue, and [join()] changes no state. *)
Definition stop_notifier_thread : co ApplicationContext unit :=
  c <- get ;;
  match notifier_thread_q c, notifier_thread c with
  | Some q, Some _ => put (with_notifier_thread_q c (Some (q ++ ["shutdown"%string])))
  | _, _ => Ret tt
  end.

(** [ApplicationContext.create_endpoint_from_worker_address(address)] after
    [UCXEndpoint.create_from_worker_address] returned [ucx_ep];
    [self.worker.progress()] changes nothing modelled here.  [loop] is the
    resolved event loop of [continuous_ucx_progress()]. *)
Definition create_endpoint_from_worker_address (loop : event_loop) (ucx_ep : UCXEndpoint)
  : co ApplicationContext Endpoint :=
  continuous_ucx_progress loop ;;;
  c <- get ;;
  Ret (new_Endpoint ucx_ep c None).

(** ** The notifier thread body [_notifierThread(event_loop, worker, q)]

    [ucx_api.PythonRequestNotifierWaitState], the result of
    [worker.wait_request_notifier(period_ns=...)]. *)
Inductive PythonRequestNotifierWaitState : Type :=
| WaitReady
| WaitTimeout
| WaitShutdown.

Definition is_wait_shutdown (st : PythonRequestNotifierWaitState) : bool :=
  match st with WaitShutdown => true | _ => false end.

Definition is_wait_timeout (st : PythonRequestNotifierWaitState) : bool :=
  match st with WaitTimeout => true | _ => false end.

(** One element of [iters] per iteration of [while True]: the state
    [wait_request_notifier] returns, and the messages other threads put on
    [q] meanwhile.  [q] holds the queued messages; [runs] counts the
    executions of [_run_request_notifier(worker)].  The result is [Some]
    of the final count and queue when the function returns, [None] while
    it is still looping when [iters] runs out. *)
Fixpoint _notifierThread (iters : list (PythonRequestNotifierWaitState * list string))
  (q : list string) (shutdown : bool) (runs : nat) : option (nat * list string) :=
  match iters with
  | [] => None
  | (state, arrived) :: iters' =>
      let q := q ++ arrived in
      (* if not q.empty(): q_val = q.get(); ... *)
      let '(q, shutdown) :=
        match q with
        | [] => (q, shutdown)
        | q_val :: q' => (q', if String.eqb q_val "shutdown" then true else shutdown)
        end in
      if is_wait_shutdown state || shutdown then Some (runs, q)
      else if is_wait_timeout state then _notifierThread iters' q shutdown runs
      else _notifierThread iters' q shutdown (S runs)
  end.

Definition count_ready (iters : list (PythonRequestNotifierWaitState * list string)) : nat :=
  length (filter (fun it => match fst it with WaitReady => true | _ => false end) iters).

(** ** [Endpoint.close()] *)




(** The part of the environment a run leaves unused. *)
Fixpoint run_rest {S A} (p : co S A) (s : S) (env : list ((S -> S) * outcome))
  : list ((S -> S) * outcome) :=
  match p with
  | Ret _ | Throw _ => env
  | Get k => run_rest (k s) s env
  | Put s' k => run_rest k s' env
  | Post _ k => run_rest k s env
  | Wait k =>
      match env with
      | [] => []
      | (f, o) :: env' => run_rest (k o) (f s) env'
      end
  end.

(** A 64-bit function standing in for [hash64bits] in concrete runs. *)
Definition sample_hash64bits (args : list hash_arg) : Z :=
  fold_left (fun acc a =>
               match a with
               | HStr s => (acc * 31 + Z.of_nat (String.length s)) mod 2 ^ 64
               | HBytes b => (acc * 31 + fold_left Z.add b 0) mod 2 ^ 64
               | HInt z => (acc * 31 + z) mod 2 ^ 64
               end) args 7.

(** Concrete objects for the runs below. *)
Definition sample_worker : UCXWorker := mk_UCXWorker [] false.

Definition sample_ctx : ApplicationContext :=
  mk_ApplicationContext [] "thread" None None sample_worker.

Definition sample_ucx_ep : UCXEndpoint := mk_UCXEndpoint 4660 true None.

Definition sample_tags : tag_set := mk_tag_set 11 22 33 44.

Definition sample_endpoint : Endpoint :=
  new_Endpoint sample_ucx_ep sample_ctx (Some sample_tags).

(** An endpoint with [k] finished receives and no threshold armed. *)
Definition endpoint_after_recvs (k : Z) : Endpoint :=
  {| _ep := Some sample_ucx_ep; _ctx := Some sample_ctx; _send_count := 0;
     _recv_count := k; _finished_recv_count := k; _shutting_down_peer := false;
     _close_after_n_recv := None; _tags := Some sample_tags |}.

Section Ucxx.

(** [ucxx.utils.hash64bits] *)
Variable hash64bits : list hash_arg -> Z.

(** HandshakeInfo, the [ret] dict of [exchange_peer_info]. *)
Record handshake_info : Type := mk_handshake_info {
  hi_msg_tag : Z;
  hi_ctrl_tag : Z;
  hi_checksum : Z
}.

(** [exchange_peer_info(endpoint, msg_tag, ctrl_tag, listener)] *)
Definition exchange_peer_info {S} (msg_tag ctrl_tag : Z) (listener : bool)
  : co S handshake_info :=
  match pack_QQQ msg_tag ctrl_tag (hash64bits [HInt msg_tag; HInt ctrl_tag]) with
  | None => Throw StructError
  | Some my_info =>
      (* peer_info = bytearray(len(my_info)) *)
      let nbytes := length my_info in
      peer_info <-
        (if listener then
           Post (StreamSend my_info) await_req ;;;
           Post (StreamRecv nbytes) await_req
         else
           peer_info <- Post (StreamRecv nbytes) await_req ;;
           Post (StreamSend my_info) await_req ;;;
           Ret peer_info) ;;
      match unpack_QQQ peer_info with
      | None => Throw StructError
      | Some (m, c, checksum) =>
          let expected_checksum := hash64bits [HInt m; HInt c] in
          if negb (expected_checksum =? checksum) then Throw RuntimeError
          else Ret (mk_handshake_info m c checksum)
      end
  end.

(** The [tags] dict built from the local tags and the peer's info. *)
Definition tags_from (msg_tag ctrl_tag : Z) (peer_info : handshake_info) : tag_set :=
  {| msg_send := hi_msg_tag peer_info; msg_recv := msg_tag;
     ctrl_send := hi_ctrl_tag peer_info; ctrl_recv := ctrl_tag |}.

(** [_listener_handler_coroutine] up to the construction of the
    [Endpoint] handed to the user callback; [seed] is [os.urandom(16)]. *)
Definition _listener_handler_coroutine (endpoint : UCXEndpoint)
  (ctx : ApplicationContext) (seed : list Z) : co unit Endpoint :=
  let msg_tag := hash64bits [HStr "msg_tag"; HBytes seed; HInt (handle endpoint)] in
  let ctrl_tag := hash64bits [HStr "ctrl_tag"; HBytes seed; HInt (handle endpoint)] in
  peer_info <- exchange_peer_info msg_tag ctrl_tag true ;;
  Ret (new_Endpoint endpoint ctx (Some (tags_from msg_tag ctrl_tag peer_info))).

(** [ApplicationContext.create_endpoint] after [UCXEndpoint.create]
    returned [ucx_ep]. *)
Definition create_endpoint_handshake (ctx : ApplicationContext) (ucx_ep : UCXEndpoint)
  (seed : list Z) : co unit Endpoint :=
  let msg_tag := hash64bits [HStr "msg_tag"; HBytes seed; HInt (handle ucx_ep)] in
  let ctrl_tag := hash64bits [HStr "ctrl_tag"; HBytes seed; HInt (handle ucx_ep)] in
  peer_info <- exchange_peer_info msg_tag ctrl_tag false ;;
  Ret (new_Endpoint ucx_ep ctx (Some (tags_from msg_tag ctrl_tag peer_info))).

(** The tag selection shared by [send], [send_multi], [recv] and
    [recv_multi]; [key] picks [_tags["msg_send"]] or [_tags["msg_recv"]]. *)
Definition select_tag (key : tag_set -> Z) (tag : option Z) (force_tag : bool)
  : co Endpoint Z :=
  match tag with
  | None => tag_lookup key
  | Some t =>
      if force_tag then Ret t
      else base <- tag_lookup key ;; Ret (hash64bits [HInt base; HInt (py_hash_int t)])
  end.

(** [except UCXCanceled as e: if self._ep is None: raise e] *)
Definition send_canceled_handler {A} (e : exc) : co Endpoint (option A) :=
  match e with
  | UCXCanceled =>
      s <- get ;;
      match _ep s with
      | None => Throw e
      | Some _ => Ret None
      end
  | _ => Throw e
  end.

(** [Endpoint.send(buffer, tag=None, force_tag=False)]; the result is
    [Some] of the request's value, or [None] for Python's [None]. *)
Definition send (buffer : list Z) (tag : option Z) (force_tag : bool)
  : co Endpoint (option (list Z)) :=
  ep_raise_on_error ;;;
  s <- get ;;
  if closed s then Throw UCXCloseError
  else
    wire_tag <- select_tag msg_send tag force_tag ;;
    modify incr_send_count ;;;
    catch
      (s <- get ;;
       match _ep s with
       | None => Throw AttributeError
       | Some _ =>
           r <- Post (TagSend buffer wire_tag) await_req ;;
           Ret (Some r)
       end)
      send_canceled_handler.

(** [Endpoint.send_multi(buffers, tag=None, force_tag=False)] *)
Definition send_multi (buffers : list (list Z)) (tag : option Z) (force_tag : bool)
  : co Endpoint (option (list Z)) :=
  ep_raise_on_error ;;;
  s <- get ;;
  if closed s then Throw UCXCloseError
  else
    wire_tag <- select_tag msg_send tag force_tag ;;
    modify incr_send_count ;;;
    catch
      (s <- get ;;
       match _ep s with
       | None => Throw AttributeError
       | Some _ =>
           r <- Post (TagSendMulti buffers wire_tag) await_req ;;
           Ret (Some r)
       end)
      send_canceled_handler.

(** [Endpoint.recv(buffer, tag=None, force_tag=False)] into a buffer of
    [nbytes] bytes. *)
Definition recv (nbytes : nat) (tag : option Z) (force_tag : bool)
  : co Endpoint (list Z) :=
  wire_tag <- select_tag msg_recv tag force_tag ;;
  s <- get ;;
  match _ctx s with
  | None => Throw AttributeError
  | Some ctx =>
      (if negb (tag_probe (worker ctx) wire_tag) then
         ep_raise_on_error ;;;
         s <- get ;;
         if closed s then Throw UCXCloseError else Ret tt
       else Ret tt) ;;;
      modify incr_recv_count ;;;
      s <- get ;;
      match _ep s with
      | None => Throw AttributeError
      | Some _ =>
          ret <- Post (TagRecv nbytes wire_tag) await_req ;;
          modify incr_finished_recv_count ;;;
          s <- get ;;
          (match _close_after_n_recv s with
           | Some n => if n <=? _finished_recv_count s then abort else Ret tt
           | None => Ret tt
           end) ;;;
          Ret ret
      end
  end.

(** The wire tag as the specification describes it (Section 4.3): the
    negotiated message-send tag when no tag is given; the given tag when
    [force_tag] is set; otherwise [hash(negotiated_tag, hash(tag))]. *)
Definition spec_send_wire_tag (ts : tag_set) (tag : option Z) (force_tag : bool) : Z :=
  match tag with
  | None => msg_send ts
  | Some t =>
      if force_tag then t else hash64bits [HInt (msg_send ts); HInt (py_hash_int t)]
  end.

(** [Endpoint.send_obj(obj, tag=None)]: the size of [obj] as
    [array.array("Q", [obj.nbytes])] (one native, little-endian, unsigned
    64-bit item; Python objects are shorter than [2^63] bytes), then [obj],
    both with [tag]. *)
Definition send_obj (obj : list Z) (tag : option Z) : co Endpoint unit :=
  let nbytes := le_encode 8 (Z.of_nat (length obj)) in
  send nbytes tag false ;;;
  send obj tag false ;;;
  Ret tt.

(** [Endpoint.recv_obj(tag=None, allocator=bytearray)]: the value of a
    completed receive is the content of the buffer it filled. *)
Definition recv_obj (tag : option Z) : co Endpoint (list Z) :=
  nbytes <- recv 8 tag false ;;
  let nbytes := le_decode nbytes in
  (* ret = allocator(nbytes) *)
  ret <- recv (Z.to_nat nbytes) tag false ;;
  Ret ret.

(** A caller awaiting [k] receives in a row:
    [for _ in range(k): await ep.recv(buffer, tag, force_tag)]. *)
Fixpoint recv_loop (k nbytes : nat) (tag : option Z) (force_tag : bool) : co Endpoint unit :=
  match k with
  | O => Ret tt
  | S k' => recv nbytes tag force_tag ;;; recv_loop k' nbytes tag force_tag
  end.

(** ** Lemmas about the wire format *)

Lemma le_encode_length : forall n v, length (le_encode n v) = n.
Proof. induction n; intros v; simpl; [reflexivity | now rewrite IHn]. Qed.

Lemma le_decode_encode : forall n v, 0 <= v < 256 ^ Z.of_nat n ->
  le_decode (le_encode n v) = v.
Proof.
  induction n as [|n IH]; intros v Hv.
  - simpl in *; lia.
  - rewrite Nat2Z.inj_succ, Z.pow_succ_r in Hv by lia.
    cbn [le_encode le_decode].
    rewrite IH.
    + change 255 with (Z.ones 8). rewrite Z.land_ones by lia.
      rewrite Z.shiftr_div_pow2 by lia.
      change (2 ^ 8) with 256.
      pose proof (Z.div_mod v 256 ltac:(lia)). lia.
    + rewrite Z.shiftr_div_pow2 by lia. change (2 ^ 8) with 256.
      split; [apply Z.div_pos; lia|].
      apply Z.div_lt_upper_bound; lia.
Qed.

Lemma pack_Q_ok : forall v, 0 <= v < 2 ^ 64 -> pack_Q v = Some (le_encode 8 v).
Proof.
  intros v Hv. unfold pack_Q.
  replace ((0 <=? v) && (v <? 2 ^ 64)) with true; [reflexivity|].
  symmetry. apply andb_true_intro. split; [apply Z.leb_le | apply Z.ltb_lt]; lia.
Qed.

Lemma unpack_app : forall x y z, length x = 8%nat -> length y = 8%nat ->
  length z = 8%nat -> unpack_QQQ (x ++ y ++ z) = Some (le_decode x, le_decode y, le_decode z).
Proof.
  intros x y z Hx Hy Hz.
  do 8 (destruct x as [|? x]; [discriminate|]). destruct x; [|discriminate].
  do 8 (destruct y as [|? y]; [discriminate|]). destruct y; [|discriminate].
  do 8 (destruct z as [|? z]; [discriminate|]). destruct z; [|discriminate].
  reflexivity.
Qed.

Lemma pack_QQQ_spec : forall a b c,
  0 <= a < 2 ^ 64 -> 0 <= b < 2 ^ 64 -> 0 <= c < 2 ^ 64 ->
  exists bs, pack_QQQ a b c = Some bs /\ length bs = 24%nat /\
             unpack_QQQ bs = Some (a, b, c).
Proof.
  intros a b c Ha Hb Hc.
  exists (le_encode 8 a ++ le_encode 8 b ++ le_encode 8 c).
  unfold pack_QQQ. rewrite !pack_Q_ok by assumption.
  split; [reflexivity|]. split.
  - rewrite !length_app, !le_encode_length. reflexivity.
  - rewrite unpack_app by apply le_encode_length.
    rewrite !le_decode_encode by (change (256 ^ Z.of_nat 8) with (2 ^ 64); lia).
    reflexivity.
Qed.

Lemma unpack_QQQ_24 : forall bs, length bs = 24%nat ->
  exists m c k, unpack_QQQ bs = Some (m, c, k).
Proof.
  intros bs H. unfold unpack_QQQ. rewrite H. simpl. eauto.
Qed.

Lemma pack_Q_length : forall v x, pack_Q v = Some x -> length x = 8%nat.
Proof.
  intros v x H. unfold pack_Q in H.
  destruct ((0 <=? v) && (v <? 2 ^ 64)); [|discriminate].
  assert (x = le_encode 8 v) as -> by congruence. apply le_encode_length.
Qed.

Lemma pack_QQQ_length : forall a b c bs, pack_QQQ a b c = Some bs -> length bs = 24%nat.
Proof.
  intros a b c bs H. unfold pack_QQQ in H.
  destruct (pack_Q a) as [x|] eqn:Ha; [|discriminate].
  destruct (pack_Q b) as [y|] eqn:Hb; [|discriminate].
  destruct (pack_Q c) as [z|] eqn:Hc; [|discriminate].
  assert (bs = x ++ y ++ z) as -> by congruence.
  rewrite !length_app, (pack_Q_length _ _ Ha), (pack_Q_length _ _ Hb),
    (pack_Q_length _ _ Hc).
  reflexivity.
Qed.

(** ** The handshake *)

(** C1 (as the code has it): the listener side posts its send first and
    its receive second, the connector the other way round; each transfer
    is awaited before the next one is posted. *)
Theorem exchange_peer_info_order :
  forall (St : Type) (s : St) msg_tag ctrl_tag (listener : bool) my_info f1 f2 d1 d2,
  pack_QQQ msg_tag ctrl_tag (hash64bits [HInt msg_tag; HInt ctrl_tag]) = Some my_info ->
  let first := if listener then StreamSend my_info else StreamRecv 24%nat in
  let second := if listener then StreamRecv 24%nat else StreamSend my_info in
  trace_of (run (exchange_peer_info msg_tag ctrl_tag listener) s []) =
    [EvPost first; EvWait] /\
  trace_of (run (exchange_peer_info msg_tag ctrl_tag listener) s [(f1, Completed d1)]) =
    [EvPost first; EvWait; EvPost second; EvWait] /\
  trace_of (run (exchange_peer_info msg_tag ctrl_tag listener) s
                [(f1, Completed d1); (f2, Completed d2)]) =
    [EvPost first; EvWait; EvPost second; EvWait].
Proof.
  intros St s msg_tag ctrl_tag listener my_info f1 f2 d1 d2 Hpack first second.
  pose proof (pack_QQQ_length _ _ _ _ Hpack) as Hlen.
  unfold exchange_peer_info, first, second. rewrite Hpack, Hlen.
  destruct listener; cbn; (split; [reflexivity| split; [reflexivity|]]).
  - destruct (unpack_QQQ d2) as [[[m c] k]|]; [destruct (negb _)|]; reflexivity.
  - destruct (unpack_QQQ d1) as [[[m c] k]|]; [destruct (negb _)|]; reflexivity.
Qed.

(** C5: whichever side runs it, [exchange_peer_info] returns the received
    HandshakeInfo exactly when its checksum is the hash of its two tags,
    and raises [RuntimeError] otherwise. *)
Theorem exchange_peer_info_checksum :
  forall (St : Type) (s : St) msg_tag ctrl_tag my_info (listener : bool) f1 f2 junk bs,
  pack_QQQ msg_tag ctrl_tag (hash64bits [HInt msg_tag; HInt ctrl_tag]) = Some my_info ->
  length bs = 24%nat ->
  let env := if listener then [(f1, Completed junk); (f2, Completed bs)]
             else [(f1, Completed bs); (f2, Completed junk)] in
  match unpack_QQQ bs with
  | Some (m, c, checksum) =>
      status_of (run (exchange_peer_info msg_tag ctrl_tag listener) s env) =
        if hash64bits [HInt m; HInt c] =? checksum
        then Returned (mk_handshake_info m c checksum)
        else Raised RuntimeError
  | None => False
  end.
Proof.
  intros St s msg_tag ctrl_tag my_info listener f1 f2 junk bs Hpack Hbs env.
  destruct (unpack_QQQ_24 bs Hbs) as (m & c & k & Hu). rewrite Hu.
  unfold env, exchange_peer_info. rewrite Hpack.
  destruct listener; cbn; rewrite Hu;
    destruct (hash64bits [HInt m; HInt c] =? k); reflexivity.
Qed.

(** ** Sending on an endpoint *)

(** Evaluates the prologue of [send] / [send_multi] on an open endpoint. *)
Ltac open_endpoint_prologue He Ha Herr Hts :=
  unfold send, send_multi, ep_raise_on_error, select_tag, tag_lookup,
    send_canceled_handler, closed;
  cbn; rewrite He; cbn; rewrite Herr; cbn; rewrite He, Ha; cbn.

(** C7: on an open endpoint with negotiated tags, [send] and [send_multi]
    post their transfer with the wire tag the specification describes. *)
Theorem send_wire_tag :
  forall s e ts buffer buffers tag force_tag,
  _ep s = Some e -> is_alive e = true -> ep_error e = None -> _tags s = Some ts ->
  trace_of (run (send buffer tag force_tag) s []) =
    [EvPost (TagSend buffer (spec_send_wire_tag ts tag force_tag)); EvWait] /\
  trace_of (run (send_multi buffers tag force_tag) s []) =
    [EvPost (TagSendMulti buffers (spec_send_wire_tag ts tag force_tag)); EvWait].
Proof.
  intros s e ts buffer buffers tag force_tag He Ha Herr Hts.
  split; open_endpoint_prologue He Ha Herr Hts;
    (destruct tag as [t|]; [destruct force_tag|]; cbn; rewrite ?Hts; cbn;
     rewrite ?He; reflexivity).
Qed.

(** C2 (as the code has it): when the awaited transfer of [send] or
    [send_multi] resolves as canceled, [UCXCanceled] is raised again if the
    endpoint's handle has been dropped meanwhile ([_ep is None], e.g. by
    [abort()]), and the call returns [None] otherwise.  [f] is whatever the
    other tasks did to the endpoint while the call was suspended. *)
Theorem send_canceled :
  forall s e ts buffer buffers tag force_tag f,
  _ep s = Some e -> is_alive e = true -> ep_error e = None -> _tags s = Some ts ->
  status_of (run (send buffer tag force_tag) s [(f, Canceled)]) =
    match _ep (f (incr_send_count s)) with
    | None => Raised UCXCanceled
    | Some _ => Returned None
    end /\
  status_of (run (send_multi buffers tag force_tag) s [(f, Canceled)]) =
    match _ep (f (incr_send_count s)) with
    | None => Raised UCXCanceled
    | Some _ => Returned None
    end.
Proof.
  intros s e ts buffer buffers tag force_tag f He Ha Herr Hts.
  split; open_endpoint_prologue He Ha Herr Hts;
    (destruct tag as [t|]; [destruct force_tag|]; cbn; rewrite ?Hts; cbn;
     rewrite ?He; cbn; destruct (_ep (f (incr_send_count s))); reflexivity).
Qed.

(** C3 (what the code does): after [abort()], [send] and [send_multi]
    fail on [self._ep.raise_on_error()] with [AttributeError] before
    reaching their [closed()] check, and [recv] fails on
    [self._ctx.worker] with [AttributeError] (or, for an endpoint without
    negotiated tags, on [self._tags[...]] with [TypeError]); none of them
    raises [UCXCloseError]. *)
Theorem send_recv_after_abort :
  forall s buffer buffers nbytes tag force_tag env,
  status_of (run (abort ;;; send buffer tag force_tag) s env) = Raised AttributeError /\
  status_of (run (abort ;;; send_multi buffers tag force_tag) s env) = Raised AttributeError /\
  status_of (run (abort ;;; recv nbytes tag force_tag) s env) =
    match tag, force_tag, _tags s with
    | Some _, true, _ => Raised AttributeError
    | _, _, Some _ => Raised AttributeError
    | _, _, None => Raised TypeError
    end.
Proof.
  intros s buffer buffers nbytes tag force_tag env.
  split; [|split]; [reflexivity | reflexivity |].
  unfold recv, select_tag, tag_lookup.
  destruct tag as [t|]; [destruct force_tag|]; cbn;
    destruct (_tags s); reflexivity.
Qed.

(** ** Both sides of the handshake *)

Lemma pair_run_S : forall A B fuel (a : co unit A) pa (b : co unit B) pb to_a to_b,
  pair_run (S fuel) a pa b pb to_a to_b =
  match step_side a pa to_a with
  | Some (a', pa', to_a', out) => pair_run fuel a' pa' b pb to_a' (to_b ++ out)
  | None =>
      match step_side b pb to_b with
      | Some (b', pb', to_b', out) => pair_run fuel a pa b' pb' (to_a ++ out) to_b'
      | None => (final a, final b)
      end
  end.
Proof. reflexivity. Qed.

(** [hash64bits] returns [int(hexdigest[:16], 16)], a 64-bit value. *)
Hypothesis hash64bits_u64 : forall args, 0 <= hash64bits args < 2 ^ 64.

(** C6: a connector ([create_endpoint]) and an acceptor
    ([_listener_handler_coroutine]) connected to each other both complete
    the handshake; each side's receive tags are the tags it generated and
    its send tags are the peer's, so A's message-send tag is B's
    message-recv tag and conversely (and likewise for the control tags). *)
Theorem handshake_round_trip : forall ctxA ctxB epA epB seedA seedB,
  let mA := hash64bits [HStr "msg_tag"; HBytes seedA; HInt (handle epA)] in
  let cA := hash64bits [HStr "ctrl_tag"; HBytes seedA; HInt (handle epA)] in
  let mB := hash64bits [HStr "msg_tag"; HBytes seedB; HInt (handle epB)] in
  let cB := hash64bits [HStr "ctrl_tag"; HBytes seedB; HInt (handle epB)] in
  match pair_run 20 (create_endpoint_handshake ctxA epA seedA) None
          (_listener_handler_coroutine epB ctxB seedB) None [] [] with
  | (Returned a, Returned b) =>
      _tags a = Some (mk_tag_set mB mA cB cA) /\
      _tags b = Some (mk_tag_set mA mB cA cB) /\
      exists ta tb, _tags a = Some ta /\ _tags b = Some tb /\
        msg_send ta = msg_recv tb /\ msg_send tb = msg_recv ta /\
        ctrl_send ta = ctrl_recv tb /\ ctrl_send tb = ctrl_recv ta
  | _ => False
  end.
Proof.
  intros ctxA ctxB epA epB seedA seedB mA cA mB cB.
  assert (RmA : 0 <= mA < 2 ^ 64) by apply hash64bits_u64.
  assert (RcA : 0 <= cA < 2 ^ 64) by apply hash64bits_u64.
  assert (RmB : 0 <= mB < 2 ^ 64) by apply hash64bits_u64.
  assert (RcB : 0 <= cB < 2 ^ 64) by apply hash64bits_u64.
  unfold create_endpoint_handshake, _listener_handler_coroutine.
  fold mA cA mB cB. clearbody mA cA mB cB.
  destruct (pack_QQQ_spec mA cA (hash64bits [HInt mA; HInt cA])) as (iA & HpA & HlA & HuA);
    try assumption; try apply hash64bits_u64.
  destruct (pack_QQQ_spec mB cB (hash64bits [HInt mB; HInt cB])) as (iB & HpB & HlB & HuB);
    try assumption; try apply hash64bits_u64.
  assert (HfA : firstn 24 iA = iA) by (apply firstn_all2; lia).
  assert (HfB : firstn 24 iB = iB) by (apply firstn_all2; lia).
  assert (HsA : skipn 24 iA = []) by (apply skipn_all2; lia).
  assert (HsB : skipn 24 iB = []) by (apply skipn_all2; lia).
  unfold exchange_peer_info. rewrite HpA, HpB, HlA, HlB.
  repeat (rewrite pair_run_S; cbn -[pair_run firstn skipn unpack_QQQ];
          rewrite ?app_nil_r, ?HlA, ?HlB, ?HfA, ?HfB, ?HsA, ?HsB, ?HuA, ?HuB, ?Z.eqb_refl;
          cbn -[pair_run firstn skipn unpack_QQQ]).
  split; [reflexivity|]. split; [reflexivity|].
  eexists _, _. repeat split.
Qed.
End Ucxx.

(** ** Progress registration *)

Lemma count_loop_app : forall loop ts ts',
  count_loop loop (ts ++ ts') = (count_loop loop ts + count_loop loop ts')%nat.
Proof. intros. unfold count_loop. rewrite filter_app, length_app. reflexivity. Qed.

Lemma loop_in_tasks_count : forall loop ts,
  loop_in_tasks loop ts = false -> count_loop loop ts = 0%nat.
Proof.
  intros loop ts. unfold loop_in_tasks, count_loop.
  induction ts as [|t ts IH]; cbn; [reflexivity|].
  destruct (task_eq_loop t loop); [discriminate|]. exact IH.
Qed.

Lemma make_progress_task_valid : forall mode loop,
  In mode valid_progress_modes ->
  exists task, make_progress_task mode loop = Some task /\ task_event_loop task = loop.
Proof.
  intros mode loop H. cbn in H.
  destruct H as [<-|[<-|[<-|[]]]]; eexists; split; reflexivity.
Qed.

(** Registration keeps at most one binding per event loop. *)
Lemma continuous_ucx_progress_count_le1 : forall c loop loop' tr c' st,
  run (continuous_ucx_progress loop) c [] = (tr, c', st) ->
  (count_loop loop' (progress_tasks c) <= 1)%nat ->
  (forall l, count_loop l (progress_tasks c) <= 1)%nat ->
  (count_loop loop' (progress_tasks c') <= 1)%nat.
Proof.
  intros c loop loop' tr c' st Hrun _ Hall.
  unfold continuous_ucx_progress in Hrun. cbn in Hrun.
  destruct (loop_in_tasks loop (progress_tasks c)) eqn:Hin.
  - injection Hrun as _ <- _. apply Hall.
  - destruct (make_progress_task (progress_mode c) loop) as [task|] eqn:Hm.
    + injection Hrun as _ <- _. cbn [progress_tasks with_progress_tasks].
      rewrite count_loop_app.
      unfold make_progress_task in Hm.
      assert (Ht : task_event_loop task = loop).
      { destruct (String.eqb (progress_mode c) "thread");
        [|destruct (String.eqb (progress_mode c) "thread-polling");
        [|destruct (String.eqb (progress_mode c) "polling")]];
        try discriminate; injection Hm as <-; reflexivity. }
      unfold count_loop at 2. cbn. unfold task_eq_loop. rewrite Ht.
      destruct (Nat.eqb loop loop') eqn:E.
      * apply Nat.eqb_eq in E. subst loop'.
        rewrite (loop_in_tasks_count _ _ Hin). cbn. lia.
      * specialize (Hall loop'). cbn. lia.
    + injection Hrun as _ <- _. apply Hall.
Qed.

(** C4: on a context whose progress mode passed [_check_progress_mode] and
    with at most one binding for [loop], a first
    [continuous_ucx_progress(loop)] succeeds, a second one changes nothing,
    and exactly one binding for [loop] is registered. *)
Theorem continuous_ucx_progress_idempotent : forall c loop,
  In (progress_mode c) valid_progress_modes ->
  (count_loop loop (progress_tasks c) <= 1)%nat ->
  exists c1,
    run (continuous_ucx_progress loop) c [] = ([], c1, Returned tt) /\
    run (continuous_ucx_progress loop) c1 [] = ([], c1, Returned tt) /\
    count_loop loop (progress_tasks c1) = 1%nat.
Proof.
  intros c loop Hmode Hle.
  destruct (make_progress_task_valid _ loop Hmode) as (task & Hm & Ht).
  unfold continuous_ucx_progress. cbn -[loop_in_tasks count_loop make_progress_task].
  destruct (loop_in_tasks loop (progress_tasks c)) eqn:Hin.
  - exists c. cbn -[loop_in_tasks count_loop make_progress_task]. rewrite Hin. split; [reflexivity|]. split; [reflexivity|].
    assert (count_loop loop (progress_tasks c) <> 0%nat).
    { unfold loop_in_tasks in Hin. unfold count_loop.
      apply existsb_exists in Hin. destruct Hin as (t & Hint & Heq).
      intro H0. apply length_zero_iff_nil in H0.
      assert (In t (filter (fun t => task_eq_loop t loop) (progress_tasks c)))
        by (apply filter_In; auto).
      rewrite H0 in H. destruct H. }
    lia.
  - rewrite Hm. eexists. split; [reflexivity|]. cbn -[loop_in_tasks count_loop make_progress_task].
    assert (Hin2 : loop_in_tasks loop (progress_tasks c ++ [task]) = true).
    { unfold loop_in_tasks. rewrite existsb_app. cbn.
      unfold task_eq_loop. rewrite Ht, Nat.eqb_refl, orb_true_r. reflexivity. }
    rewrite Hin2. split; [reflexivity|].
    rewrite count_loop_app, (loop_in_tasks_count _ _ Hin).
    unfold count_loop. cbn. unfold task_eq_loop. rewrite Ht, Nat.eqb_refl. reflexivity.
Qed.

(** ** [close_after_n_recv] *)

(** C8 (as the code has it): [n] is made absolute by adding the current
    finished-receive count unless [count_from_ep_creation] is set; an
    armed threshold makes the call fail; otherwise an absolute threshold
    equal to the current count aborts at once, a larger one is armed and a
    smaller one makes the call fail.  In particular, after 3 finished
    receives [close_after_n_recv(3, count_from_ep_creation=True)] aborts,
    while the default [close_after_n_recv(3)] arms the threshold 6. *)
Theorem close_after_n_recv_cases : forall s n (count_from_ep_creation : bool),
  let fin := _finished_recv_count s in
  let abs := if count_from_ep_creation then n else n + fin in
  let r := run (close_after_n_recv n count_from_ep_creation) s [] in
  (_close_after_n_recv s <> None -> status_of r = Raised UCXError /\ state_of r = s) /\
  (_close_after_n_recv s = None -> abs = fin ->
     status_of r = Returned tt /\ state_of r = abort_state s /\ closed (state_of r) = true) /\
  (_close_after_n_recv s = None -> fin < abs ->
     status_of r = Returned tt /\ _close_after_n_recv (state_of r) = Some abs /\
     _ep (state_of r) = _ep s) /\
  (_close_after_n_recv s = None -> abs < fin ->
     status_of r = Raised UCXError /\ state_of r = s) /\
  (_close_after_n_recv s = None -> fin = 3 ->
     state_of (run (close_after_n_recv 3 true) s []) = abort_state s /\
     _close_after_n_recv (state_of (run (close_after_n_recv 3 false) s [])) = Some 6).
Proof.
  intros s n cfc fin abs r. unfold r, abs, fin, close_after_n_recv, abort. cbn.
  destruct (_close_after_n_recv s) as [k|] eqn:Hk.
  - split; [intros _; split; reflexivity|].
    split; [|split; [|split]]; intros Hn; discriminate Hn.
  - split; [intros Hn; contradiction Hn; reflexivity|].
    split; [|split; [|split]].
    + intros _ Heq. rewrite Heq, Z.eqb_refl. repeat split.
    + intros _ Hlt.
      assert (E1 : ((if cfc then n else n + _finished_recv_count s) =?
                    _finished_recv_count s) = false) by (apply Z.eqb_neq; lia).
      assert (E2 : (_finished_recv_count s <?
                    (if cfc then n else n + _finished_recv_count s)) = true)
        by (apply Z.ltb_lt; lia).
      rewrite E1, E2. repeat split.
    + intros _ Hlt.
      assert (E1 : ((if cfc then n else n + _finished_recv_count s) =?
                    _finished_recv_count s) = false) by (apply Z.eqb_neq; lia).
      assert (E2 : (_finished_recv_count s <?
                    (if cfc then n else n + _finished_recv_count s)) = false)
        by (apply Z.ltb_ge; lia).
      rewrite E1, E2. repeat split.
    + intros _ H3. rewrite H3. split; reflexivity.
Qed.

(** ** The notifier thread *)

(** C9: with Python-future notification enabled, [start_notifier_thread]
    raises [NameError] on the global name [loop], and no notifier thread
    is recorded. *)
Theorem start_notifier_thread_name_error : forall c,
  is_python_future_enabled (worker c) = true ->
  status_of (run start_notifier_thread c []) = Raised (NameError "loop") /\
  notifier_thread (state_of (run start_notifier_thread c [])) = notifier_thread c.
Proof.
  intros c H. unfold start_notifier_thread. cbn -[resolve_name].
  rewrite H. cbn. split; reflexivity.
Qed.

(** ** [_check_enable_delayed_submission] *)

(** C10: the check returns [None] for every argument and environment, so
    [UCXWorker] is always built with [enable_delayed_submission=None]. *)
Theorem check_enable_delayed_submission_none : forall v env,
  _check_enable_delayed_submission v env = Some PyNone /\
  init_worker_enable_delayed_submission v env = Some PyNone.
Proof.
  intros v env.
  assert (H : _check_enable_delayed_submission v env = Some PyNone).
  { unfold _check_enable_delayed_submission, call, _check_enable_delayed_submission_body.
    cbn.
    destruct (pyval_eqb v PyNone); cbn; [|reflexivity].
    destruct (assoc_lookup "UCXPY_ENABLE_DELAYED_SUBMISSION" env) as [x|]; cbn;
      [destruct (String.eqb x "0")|]; reflexivity. }
  split; [exact H | exact H].
Qed.

(** ** Concrete runs *)

Lemma sample_hash64bits_u64 : forall args, 0 <= sample_hash64bits args < 2 ^ 64.
Proof.
  intros args. unfold sample_hash64bits.
  assert (Hinv : forall l acc, 0 <= acc < 2 ^ 64 ->
    0 <= fold_left (fun acc a =>
               match a with
               | HStr s => (acc * 31 + Z.of_nat (String.length s)) mod 2 ^ 64
               | HBytes b => (acc * 31 + fold_left Z.add b 0) mod 2 ^ 64
               | HInt z => (acc * 31 + z) mod 2 ^ 64
               end) l acc < 2 ^ 64).
  { induction l as [|a l IH]; intros acc Hacc; cbn; [exact Hacc|].
    apply IH. destruct a; apply Z.mod_pos_bound; lia. }
  apply Hinv. lia.
Qed.

(** C1: the acceptor side ([listener=True]) posts a send first, not a
    receive; the connector posts a receive first. *)
Lemma exchange_peer_info_listener_sends_first :
  (exists d, hd_error (trace_of (run (@exchange_peer_info sample_hash64bits unit 1 2 true) tt []))
             = Some (EvPost (StreamSend d))) /\
  ~ (exists n, hd_error (trace_of (run (@exchange_peer_info sample_hash64bits unit 1 2 true) tt []))
               = Some (EvPost (StreamRecv n))) /\
  hd_error (trace_of (run (@exchange_peer_info sample_hash64bits unit 1 2 false) tt []))
    = Some (EvPost (StreamRecv 24)).
Proof.
  split; [|split].
  - eexists. vm_compute. reflexivity.
  - intros [n Hn]. vm_compute in Hn. discriminate Hn.
  - vm_compute. reflexivity.
Qed.

Lemma exchange_peer_info_order_witness :
  let my_info := le_encode 8 1 ++ le_encode 8 2 ++
                 le_encode 8 (sample_hash64bits [HInt 1; HInt 2]) in
  pack_QQQ 1 2 (sample_hash64bits [HInt 1; HInt 2]) = Some my_info /\
  trace_of (run (@exchange_peer_info sample_hash64bits unit 1 2 true) tt []) =
    [EvPost (StreamSend my_info); EvWait] /\
  trace_of (run (@exchange_peer_info sample_hash64bits unit 1 2 true) tt
                [(fun x => x, Completed [])]) =
    [EvPost (StreamSend my_info); EvWait; EvPost (StreamRecv 24); EvWait] /\
  trace_of (run (@exchange_peer_info sample_hash64bits unit 1 2 true) tt
                [(fun x => x, Completed []); (fun x => x, Completed my_info)]) =
    [EvPost (StreamSend my_info); EvWait; EvPost (StreamRecv 24); EvWait].
Proof.
  intros my_info.
  assert (Hp : pack_QQQ 1 2 (sample_hash64bits [HInt 1; HInt 2]) = Some my_info)
    by (vm_compute; reflexivity).
  split; [exact Hp|].
  exact (exchange_peer_info_order sample_hash64bits unit tt 1 2 true my_info
           (fun x => x) (fun x => x) [] my_info Hp).
Defined.

Lemma exchange_peer_info_checksum_witness :
  let my_info := le_encode 8 1 ++ le_encode 8 2 ++
                 le_encode 8 (sample_hash64bits [HInt 1; HInt 2]) in
  let bs := le_encode 8 5 ++ le_encode 8 6 ++ le_encode 8 9 in
  pack_QQQ 1 2 (sample_hash64bits [HInt 1; HInt 2]) = Some my_info /\
  length bs = 24%nat /\
  match unpack_QQQ bs with
  | Some (m, c, checksum) =>
      status_of (run (@exchange_peer_info sample_hash64bits unit 1 2 false) tt
                     [(fun x => x, Completed bs); (fun x => x, Completed [])]) =
        if sample_hash64bits [HInt m; HInt c] =? checksum
        then Returned (mk_handshake_info m c checksum)
        else Raised RuntimeError
  | None => False
  end.
Proof.
  intros my_info bs.
  assert (Hp : pack_QQQ 1 2 (sample_hash64bits [HInt 1; HInt 2]) = Some my_info)
    by (vm_compute; reflexivity).
  assert (Hl : length bs = 24%nat) by reflexivity.
  split; [exact Hp|]. split; [exact Hl|].
  exact (exchange_peer_info_checksum sample_hash64bits unit tt 1 2 my_info false
           (fun x => x) (fun x => x) [] bs Hp Hl).
Defined.

Lemma send_wire_tag_witness :
  _ep sample_endpoint = Some sample_ucx_ep /\ is_alive sample_ucx_ep = true /\
  ep_error sample_ucx_ep = None /\ _tags sample_endpoint = Some sample_tags /\
  trace_of (run (send sample_hash64bits [1; 2; 3; 4] (Some 5) false) sample_endpoint []) =
    [EvPost (TagSend [1; 2; 3; 4]
               (spec_send_wire_tag sample_hash64bits sample_tags (Some 5) false)); EvWait] /\
  trace_of (run (send_multi sample_hash64bits [[1; 2]; [3]] (Some 5) false) sample_endpoint []) =
    [EvPost (TagSendMulti [[1; 2]; [3]]
               (spec_send_wire_tag sample_hash64bits sample_tags (Some 5) false)); EvWait].
Proof.
  assert (H1 : _ep sample_endpoint = Some sample_ucx_ep) by reflexivity.
  assert (H2 : is_alive sample_ucx_ep = true) by reflexivity.
  assert (H3 : ep_error sample_ucx_ep = None) by reflexivity.
  assert (H4 : _tags sample_endpoint = Some sample_tags) by reflexivity.
  split; [exact H1|]. split; [exact H2|]. split; [exact H3|]. split; [exact H4|].
  exact (send_wire_tag sample_hash64bits sample_endpoint sample_ucx_ep sample_tags
           [1; 2; 3; 4] [[1; 2]; [3]] (Some 5) false H1 H2 H3 H4).
Defined.

(** C2: a [send] whose transfer is canceled after [abort()] re-raises
    [UCXCanceled]; on an endpoint that was not torn down it returns [None]. *)
Lemma send_canceled_after_abort_reraised :
  status_of (run (send sample_hash64bits [1; 2; 3; 4] None false) sample_endpoint
                 [(abort_state, Canceled)]) = Raised UCXCanceled /\
  status_of (run (send sample_hash64bits [1; 2; 3; 4] None false) sample_endpoint
                 [(abort_state, Canceled)]) <> Returned None /\
  status_of (run (send sample_hash64bits [1; 2; 3; 4] None false) sample_endpoint
                 [(fun x => x, Canceled)]) = Returned None.
Proof.
  split; [|split].
  - vm_compute. reflexivity.
  - vm_compute. discriminate.
  - vm_compute. reflexivity.
Qed.

Lemma send_canceled_witness :
  _ep sample_endpoint = Some sample_ucx_ep /\ is_alive sample_ucx_ep = true /\
  ep_error sample_ucx_ep = None /\ _tags sample_endpoint = Some sample_tags /\
  status_of (run (send sample_hash64bits [1; 2; 3; 4] None false) sample_endpoint
                 [(abort_state, Canceled)]) =
    match _ep (abort_state (incr_send_count sample_endpoint)) with
    | None => Raised UCXCanceled
    | Some _ => Returned None
    end /\
  status_of (run (send_multi sample_hash64bits [[1; 2]] None false) sample_endpoint
                 [(abort_state, Canceled)]) =
    match _ep (abort_state (incr_send_count sample_endpoint)) with
    | None => Raised UCXCanceled
    | Some _ => Returned None
    end.
Proof.
  assert (H1 : _ep sample_endpoint = Some sample_ucx_ep) by reflexivity.
  assert (H2 : is_alive sample_ucx_ep = true) by reflexivity.
  assert (H3 : ep_error sample_ucx_ep = None) by reflexivity.
  assert (H4 : _tags sample_endpoint = Some sample_tags) by reflexivity.
  split; [exact H1|]. split; [exact H2|]. split; [exact H3|]. split; [exact H4|].
  exact (send_canceled sample_hash64bits sample_endpoint sample_ucx_ep sample_tags
           [1; 2; 3; 4] [[1; 2]] None false abort_state H1 H2 H3 H4).
Defined.

Lemma handshake_round_trip_witness :
  (forall args, 0 <= sample_hash64bits args < 2 ^ 64) /\
  let epB := mk_UCXEndpoint 4661 true None in
  let mA := sample_hash64bits [HStr "msg_tag"; HBytes [1; 2; 3]; HInt (handle sample_ucx_ep)] in
  let cA := sample_hash64bits [HStr "ctrl_tag"; HBytes [1; 2; 3]; HInt (handle sample_ucx_ep)] in
  let mB := sample_hash64bits [HStr "msg_tag"; HBytes [4; 5]; HInt (handle epB)] in
  let cB := sample_hash64bits [HStr "ctrl_tag"; HBytes [4; 5]; HInt (handle epB)] in
  match pair_run 20 (create_endpoint_handshake sample_hash64bits sample_ctx sample_ucx_ep [1; 2; 3])
          None (_listener_handler_coroutine sample_hash64bits epB sample_ctx [4; 5]) None [] [] with
  | (Returned a, Returned b) =>
      _tags a = Some (mk_tag_set mB mA cB cA) /\
      _tags b = Some (mk_tag_set mA mB cA cB) /\
      exists ta tb, _tags a = Some ta /\ _tags b = Some tb /\
        msg_send ta = msg_recv tb /\ msg_send tb = msg_recv ta /\
        ctrl_send ta = ctrl_recv tb /\ ctrl_send tb = ctrl_recv ta
  | _ => False
  end.
Proof.
  split; [exact sample_hash64bits_u64|].
  exact (handshake_round_trip sample_hash64bits sample_hash64bits_u64
           sample_ctx sample_ctx sample_ucx_ep (mk_UCXEndpoint 4661 true None)
           [1; 2; 3] [4; 5]).
Defined.

Lemma continuous_ucx_progress_idempotent_witness :
  In (progress_mode sample_ctx) valid_progress_modes /\
  (count_loop 0%nat (progress_tasks sample_ctx) <= 1)%nat /\
  exists c1,
    run (continuous_ucx_progress 0%nat) sample_ctx [] = ([], c1, Returned tt) /\
    run (continuous_ucx_progress 0%nat) c1 [] = ([], c1, Returned tt) /\
    count_loop 0%nat (progress_tasks c1) = 1%nat.
Proof.
  assert (H1 : In (progress_mode sample_ctx) valid_progress_modes)
    by (cbn; tauto).
  assert (H2 : (count_loop 0%nat (progress_tasks sample_ctx) <= 1)%nat)
    by (vm_compute; lia).
  split; [exact H1|]. split; [exact H2|].
  exact (continuous_ucx_progress_idempotent sample_ctx 0%nat H1 H2).
Defined.

(** C8: after three finished receives, the default
    [close_after_n_recv(3)] does not abort the endpoint: it arms the
    threshold 6. *)
Lemma close_after_n_recv_default_is_relative :
  status_of (run (close_after_n_recv 3 false) (endpoint_after_recvs 3) []) = Returned tt /\
  closed (state_of (run (close_after_n_recv 3 false) (endpoint_after_recvs 3) [])) = false /\
  _close_after_n_recv (state_of (run (close_after_n_recv 3 false) (endpoint_after_recvs 3) []))
    = Some 6.
Proof.
  split; [|split]; vm_compute; reflexivity.
Qed.

Lemma start_notifier_thread_name_error_witness :
  let c := mk_ApplicationContext [] "thread" None None (mk_UCXWorker [] true) in
  is_python_future_enabled (worker c) = true /\
  status_of (run start_notifier_thread c []) = Raised (NameError "loop") /\
  notifier_thread (state_of (run start_notifier_thread c [])) = notifier_thread c.
Proof.
  intros c.
  assert (H : is_python_future_enabled (worker c) = true) by reflexivity.
  split; [exact H|].
  exact (start_notifier_thread_name_error c H).
Defined.

(** ** Further properties of the module *)

Lemma run_bind : forall {S A B} (m : co S A) (f : A -> co S B) s env,
  run (bind m f) s env =
  match run m s env with
  | (tr, s', Returned a) =>
      let '(tr2, s2, st) := run (f a) s' (run_rest m s env) in (tr ++ tr2, s2, st)
  | (tr, s', Raised e) => (tr, s', Raised e)
  | (tr, s', Suspended) => (tr, s', Suspended)
  end.
Proof.
  intros S A B m f. induction m as [a|e|k IH|s' k IH|r k IH|k IH]; intros s env; cbn.
  - destruct (run (f a) s env) as [[? ?] ?]. reflexivity.
  - reflexivity.
  - apply IH.
  - apply IH.
  - rewrite IH. destruct (run k s env) as [[tr s'] [a|e|]]; [|reflexivity|reflexivity].
    destruct (run (f a) s' (run_rest k s env)) as [[? ?] ?]. reflexivity.
  - destruct env as [|[g o] env]; [reflexivity|].
    rewrite IH. destruct (run (k o) (g s) env) as [[tr s'] [a|e|]]; [|reflexivity|reflexivity].
    destruct (run (f a) s' (run_rest (k o) (g s) env)) as [[? ?] ?]. reflexivity.
Qed.

Lemma continuous_ucx_progress_run : forall c loop env,
  In (progress_mode c) valid_progress_modes ->
  exists task, task_event_loop task = loop /\
    run (continuous_ucx_progress loop) c env =
      ([], if loop_in_tasks loop (progress_tasks c) then c
           else with_progress_tasks c (progress_tasks c ++ [task]), Returned tt) /\
    run_rest (continuous_ucx_progress loop) c env = env.
Proof.
  intros c loop env Hmode.
  destruct (make_progress_task_valid _ loop Hmode) as (task & Hm & Ht).
  exists task. split; [exact Ht|].
  unfold continuous_ucx_progress. cbn -[loop_in_tasks make_progress_task].
  destruct (loop_in_tasks loop (progress_tasks c)); [split; reflexivity|].
  rewrite Hm. split; reflexivity.
Qed.

Lemma pack_Q_some_range : forall v x, pack_Q v = Some x -> 0 <= v < 2 ^ 64.
Proof.
  intros v x H. unfold pack_Q in H.
  destruct ((0 <=? v) && (v <? 2 ^ 64)) eqn:E; [|discriminate].
  apply andb_prop in E. destruct E as [E1 E2].
  apply Z.leb_le in E1. apply Z.ltb_lt in E2. lia.
Qed.

Lemma pack_QQQ_some_range : forall a b c bs, pack_QQQ a b c = Some bs ->
  0 <= a < 2 ^ 64 /\ 0 <= b < 2 ^ 64 /\ 0 <= c < 2 ^ 64.
Proof.
  intros a b c bs H. unfold pack_QQQ in H.
  destruct (pack_Q a) eqn:Ea; [|discriminate].
  destruct (pack_Q b) eqn:Eb; [|discriminate].
  destruct (pack_Q c) eqn:Ec; [|discriminate].
  apply pack_Q_some_range in Ea, Eb, Ec. lia.
Qed.

(** X1: [_check_progress_mode] returns one of the three valid modes: the
    explicit string argument, or for [None] the [UCXPY_PROGRESS_MODE]
    variable, or ["thread"] when it is unset; a context with such a mode
    never fails in [continuous_ucx_progress]. *)
Theorem check_progress_mode_result : forall v env m,
  _check_progress_mode v env = Some m ->
  In m valid_progress_modes /\
  (v = PyStr m \/
   (v = PyNone /\
    (assoc_lookup "UCXPY_PROGRESS_MODE" env = Some m \/
     (assoc_lookup "UCXPY_PROGRESS_MODE" env = None /\ m = "thread"%string)))) /\
  (forall c loop, progress_mode c = m ->
     status_of (run (continuous_ucx_progress loop) c []) = Returned tt).
Proof.
  intros v env m H.
  assert (Hin : In m valid_progress_modes /\
    (v = PyStr m \/
     (v = PyNone /\
      (assoc_lookup "UCXPY_PROGRESS_MODE" env = Some m \/
       (assoc_lookup "UCXPY_PROGRESS_MODE" env = None /\ m = "thread"%string))))).
  { unfold _check_progress_mode in H.
    destruct v as [|b|x].
    - destruct (assoc_lookup "UCXPY_PROGRESS_MODE" env) as [x|] eqn:E.
      + destruct (existsb (String.eqb x) valid_progress_modes) eqn:Ex; [|discriminate].
        assert (x = m) as <- by congruence.
        apply existsb_exists in Ex. destruct Ex as (y & Hy & Hxy).
        apply String.eqb_eq in Hxy. subst y. split; [exact Hy|]. right; split; auto.
      + cbn in H. assert (m = "thread"%string) as -> by congruence.
        split; [cbn; tauto|]. right; split; auto.
    - discriminate.
    - destruct (existsb (String.eqb x) valid_progress_modes) eqn:Ex; [|discriminate].
      assert (x = m) as <- by congruence.
      apply existsb_exists in Ex. destruct Ex as (y & Hy & Hxy).
      apply String.eqb_eq in Hxy. subst y. split; [exact Hy|]. left; reflexivity. }
  destruct Hin as [Hin Hsrc]. split; [exact Hin|]. split; [exact Hsrc|].
  intros c loop Hc. subst m.
  destruct (continuous_ucx_progress_run c loop [] Hin) as (task & _ & Hrun & _).
  rewrite Hrun. reflexivity.
Qed.


(** X3: on a context without a notifier thread, [stop_notifier_thread]
    after [start_notifier_thread] (whether the latter raised or not) finds
    no thread and changes nothing: no ["shutdown"] message is queued. *)
Theorem stop_after_start_notifier_thread_noop : forall c,
  notifier_thread c = None ->
  let c1 := state_of (run start_notifier_thread c []) in
  notifier_thread c1 = None /\ run stop_notifier_thread c1 [] = ([], c1, Returned tt).
Proof.
  intros c Hc c1. unfold c1, start_notifier_thread. cbn -[resolve_name].
  destruct (is_python_future_enabled (worker c)); cbn; rewrite Hc.
  - split; [reflexivity|]. destruct (notifier_thread_q c); reflexivity.
  - split; [reflexivity|]. destruct (notifier_thread_q c); reflexivity.
Qed.

(** X4: the notifier thread with an empty queue keeps looping until the
    iteration in which the worker reports [Shutdown] or the message
    ["shutdown"] arrives, and returns in that very iteration; it has then
    run the request notifier once per [Ready] iteration before it
    ([Timeout] iterations run nothing). *)
Theorem notifier_thread_stop_iteration : forall pre st arr rest runs,
  Forall (fun it => fst it <> WaitShutdown /\ snd it = []) pre ->
  (st = WaitShutdown /\ arr = [] \/ arr = ["shutdown"%string]) ->
  _notifierThread (pre ++ (st, arr) :: rest) [] false runs = Some (runs + count_ready pre, [])%nat /\
  _notifierThread pre [] false runs = None.
Proof.
  intros pre st arr rest runs Hpre Hstop.
  induction pre as [|[s a] pre IH] in runs, Hpre |- *.
  - cbn. rewrite Nat.add_0_r. split; [|reflexivity].
    destruct Hstop as [[-> ->] | ->]; cbn; [reflexivity|].
    rewrite orb_true_r. reflexivity.
  - inversion Hpre as [|x l [Hs Ha] Hpre' Heq]; subst. cbn in Hs, Ha. subst a.
    cbn -[count_ready].
    assert (Hsd : is_wait_shutdown s = false) by (destruct s; [reflexivity|reflexivity|contradiction Hs; reflexivity]).
    rewrite Hsd. cbn -[count_ready].
    destruct s; cbn -[count_ready].
    + destruct (IH (S runs) Hpre') as [H1 H2]. rewrite H1, H2. split; [|reflexivity].
      change (count_ready ((WaitReady, []) :: pre)) with (S (count_ready pre)).
      rewrite Nat.add_succ_r. reflexivity.
    + destruct (IH runs Hpre') as [H1 H2]. rewrite H1, H2. split; reflexivity.
    + contradiction Hs; reflexivity.
Qed.

(** X5: the notifier thread takes at most one message from its queue per
    iteration: with [k] other messages queued ahead of ["shutdown"], it
    returns only in iteration [k + 1], having discarded them. *)
Theorem notifier_thread_one_message_per_iteration : forall q pre st rest runs,
  Forall (fun x => x <> "shutdown"%string) q ->
  length pre = length q ->
  Forall (fun it => fst it <> WaitShutdown /\ snd it = []) pre ->
  _notifierThread (pre ++ (st, []) :: rest) (q ++ ["shutdown"%string]) false runs
    = Some (runs + count_ready pre, [])%nat.
Proof.
  intros q pre st rest runs Hq Hlen Hpre.
  induction pre as [|[s a] pre IH] in q, runs, Hq, Hlen, Hpre |- *.
  - destruct q; [|discriminate]. cbn. rewrite orb_true_r, Nat.add_0_r. reflexivity.
  - destruct q as [|x q]; [discriminate|]. cbn in Hlen. injection Hlen as Hlen.
    inversion Hpre as [|y l [Hs Ha] Hpre' Heq]; subst. cbn in Hs, Ha. subst a.
    inversion Hq as [|z l Hx Hq' Heq]; subst.
    cbn -[count_ready]. rewrite app_nil_r.
    assert (Hxs : String.eqb x "shutdown" = false) by (apply String.eqb_neq; exact Hx).
    rewrite Hxs.
    assert (Hsd : is_wait_shutdown s = false) by (destruct s; [reflexivity|reflexivity|contradiction Hs; reflexivity]).
    rewrite Hsd. cbn -[count_ready].
    destruct s; cbn -[count_ready].
    + rewrite (IH q (S runs) Hq' Hlen Hpre').
      change (count_ready ((WaitReady, []) :: pre)) with (S (count_ready pre)).
      rewrite Nat.add_succ_r. reflexivity.
    + rewrite (IH q runs Hq' Hlen Hpre'). reflexivity.
    + contradiction Hs; reflexivity.
Qed.


(** X7: [exchange_peer_info] with a tag outside the range of format [Q]
    raises [struct.error] before any transfer is posted. *)
Theorem exchange_peer_info_struct_error : forall h St (s : St) msg_tag ctrl_tag listener env,
  ~ (0 <= msg_tag < 2 ^ 64 /\ 0 <= ctrl_tag < 2 ^ 64) ->
  run (@exchange_peer_info h St msg_tag ctrl_tag listener) s env = ([], s, Raised StructError).
Proof.
  intros h St s msg_tag ctrl_tag listener env Hr. unfold exchange_peer_info.
  destruct (pack_QQQ msg_tag ctrl_tag (h [HInt msg_tag; HInt ctrl_tag])) eqn:E.
  - apply pack_QQQ_some_range in E. exfalso. apply Hr. lia.
  - reflexivity.
Qed.

(** X8: [struct.pack("QQQ", a, b, c)] succeeds exactly for three values in
    [0, 2^64), and then gives 24 bytes that [struct.unpack("QQQ", ...)]
    turns back into [(a, b, c)]. *)
Theorem pack_QQQ_unpack_QQQ : forall a b c,
  (pack_QQQ a b c <> None <-> 0 <= a < 2 ^ 64 /\ 0 <= b < 2 ^ 64 /\ 0 <= c < 2 ^ 64) /\
  (forall bs, pack_QQQ a b c = Some bs ->
     length bs = 24%nat /\ unpack_QQQ bs = Some (a, b, c)).
Proof.
  intros a b c. split.
  - split.
    + intros H. destruct (pack_QQQ a b c) as [bs|] eqn:E; [|contradiction H; reflexivity].
      exact (pack_QQQ_some_range _ _ _ _ E).
    + intros (Ha & Hb & Hc). destruct (pack_QQQ_spec a b c Ha Hb Hc) as (bs & E & _).
      rewrite E. discriminate.
  - intros bs E. destruct (pack_QQQ_some_range _ _ _ _ E) as (Ha & Hb & Hc).
    destruct (pack_QQQ_spec a b c Ha Hb Hc) as (bs' & E' & Hl & Hu).
    rewrite E in E'. assert (bs = bs') as -> by congruence. split; assumption.
Qed.

(** X9: [continuous_ucx_progress] only ever appends to [progress_tasks]:
    calling it for two event loops succeeds, keeps the earlier tasks in
    place, adds at most two tasks and leaves both loops registered. *)
Theorem continuous_ucx_progress_two_loops : forall c l1 l2,
  In (progress_mode c) valid_progress_modes ->
  let r1 := run (continuous_ucx_progress l1) c [] in
  let r2 := run (continuous_ucx_progress l2) (state_of r1) [] in
  status_of r1 = Returned tt /\ status_of r2 = Returned tt /\
  loop_in_tasks l1 (progress_tasks (state_of r2)) = true /\
  loop_in_tasks l2 (progress_tasks (state_of r2)) = true /\
  exists added, progress_tasks (state_of r2) = progress_tasks c ++ added /\
                (length added <= 2)%nat.
Proof.
  intros c l1 l2 Hmode r1 r2.
  assert (Hin_app : forall l ts ts', loop_in_tasks l ts = true ->
            loop_in_tasks l (ts ++ ts') = true).
  { intros l ts ts' H. unfold loop_in_tasks in *. rewrite existsb_app, H. reflexivity. }
  assert (Hin_last : forall l ts task, task_event_loop task = l ->
            loop_in_tasks l (ts ++ [task]) = true).
  { intros l ts task Ht. unfold loop_in_tasks. rewrite existsb_app. cbn.
    unfold task_eq_loop. rewrite Ht, Nat.eqb_refl, orb_true_r. reflexivity. }
  destruct (continuous_ucx_progress_run c l1 [] Hmode) as (t1 & Ht1 & Hr1 & _).
  set (c1 := if loop_in_tasks l1 (progress_tasks c) then c
             else with_progress_tasks c (progress_tasks c ++ [t1])) in Hr1.
  assert (Hmode1 : In (progress_mode c1) valid_progress_modes)
    by (unfold c1; destruct (loop_in_tasks l1 (progress_tasks c)); exact Hmode).
  assert (Hl1 : loop_in_tasks l1 (progress_tasks c1) = true).
  { unfold c1. destruct (loop_in_tasks l1 (progress_tasks c)) eqn:E; [exact E|].
    cbn. apply Hin_last. exact Ht1. }
  assert (Hp1 : exists a1, progress_tasks c1 = progress_tasks c ++ a1 /\ (length a1 <= 1)%nat).
  { unfold c1. destruct (loop_in_tasks l1 (progress_tasks c)).
    - exists []. rewrite app_nil_r. split; [reflexivity|cbn; lia].
    - exists [t1]. split; [reflexivity|cbn; lia]. }
  destruct (continuous_ucx_progress_run c1 l2 [] Hmode1) as (t2 & Ht2 & Hr2 & _).
  unfold r2, r1. rewrite Hr1. cbn [state_of status_of fst snd]. rewrite Hr2. cbn [fst snd].
  destruct Hp1 as (a1 & Ha1 & Hlen1).
  split; [reflexivity|]. split; [reflexivity|].
  destruct (loop_in_tasks l2 (progress_tasks c1)) eqn:E2; cbn [progress_tasks with_progress_tasks].
  - split; [exact Hl1|]. split; [exact E2|]. exists a1. split; [exact Ha1|lia].
  - split; [apply Hin_app; exact Hl1|]. split; [apply Hin_last; exact Ht2|].
    exists (a1 ++ [t2]). rewrite Ha1, app_assoc. split; [reflexivity|].
    rewrite length_app. cbn. lia.
Qed.

Lemma recv_completed : forall h s e ctx ts nb tag ft f d env,
  _ep s = Some e -> is_alive e = true -> ep_error e = None ->
  _ctx s = Some ctx -> _tags s = Some ts ->
  run (recv h nb tag ft) s ((f, Completed d) :: env) =
    ([EvPost (TagRecv nb (match tag with
                          | None => msg_recv ts
                          | Some t => if ft then t
                                      else h [HInt (msg_recv ts); HInt (py_hash_int t)]
                          end)); EvWait],
     match _close_after_n_recv (incr_finished_recv_count (f (incr_recv_count s))) with
     | Some n =>
         if n <=? _finished_recv_count (incr_finished_recv_count (f (incr_recv_count s)))
         then abort_state (incr_finished_recv_count (f (incr_recv_count s)))
         else incr_finished_recv_count (f (incr_recv_count s))
     | None => incr_finished_recv_count (f (incr_recv_count s))
     end,
     Returned d) /\
  run_rest (recv h nb tag ft) s ((f, Completed d) :: env) = env.
Proof.
  intros h s e ctx ts nb tag ft f d env Hep Ha Herr Hctx Hts.
  destruct s as [ep ctx' sc rc frc sdp can tg]; cbn in Hep, Hctx, Hts; subst.
  destruct e as [hd al er]; cbn in Ha, Herr; subst.
  unfold recv, select_tag, tag_lookup.
  destruct tag as [t|]; [destruct ft|]; cbn;
    (destruct (tag_probe (worker ctx) _); cbn;
     unfold incr_recv_count; cbn [_ep _ctx _send_count _recv_count _finished_recv_count
                                  _shutting_down_peer _close_after_n_recv _tags];
     destruct (f _) as [ep2 ctx2 sc2 rc2 frc2 sdp2 can2 tg2]; cbn;
     (destruct can2 as [n|]; [destruct (n <=? frc2 + 1)|]; cbn; split; reflexivity)).
Qed.

Lemma recv_loop_threshold : forall h k s e ctx ts nb tag ft d m,
  _ep s = Some e -> is_alive e = true -> ep_error e = None ->
  _ctx s = Some ctx -> _tags s = Some ts -> _close_after_n_recv s = Some m ->
  _finished_recv_count s + Z.of_nat k <= m ->
  let r := run (recv_loop h k nb tag ft) s (repeat (fun x => x, Completed d) k) in
  status_of r = Returned tt /\ _tags (state_of r) = Some ts /\
  (if (0 <? Z.of_nat k) && (_finished_recv_count s + Z.of_nat k =? m)
   then _ep (state_of r) = None /\ _ctx (state_of r) = None
   else _ep (state_of r) = Some e /\ _ctx (state_of r) = Some ctx).
Proof.
  intros h k. induction k as [|k IH];
    intros s e ctx ts nb tag ft d m Hep Ha Herr Hctx Hts Hcan Hle r; unfold r.
  - cbn. rewrite Hts, Hep, Hctx. repeat split.
  - change (recv_loop h (S k) nb tag ft)
      with (bind (recv h nb tag ft) (fun _ => recv_loop h k nb tag ft)).
    change (repeat (fun x : Endpoint => x, Completed d) (S k))
      with ((fun x : Endpoint => x, Completed d) :: repeat (fun x : Endpoint => x, Completed d) k).
    rewrite run_bind.
    destruct (recv_completed h s e ctx ts nb tag ft (fun x => x) d
                (repeat (fun x : Endpoint => x, Completed d) k) Hep Ha Herr Hctx Hts)
      as [Hrun Hrest].
    rewrite Hrun, Hrest.
    cbn [_close_after_n_recv incr_finished_recv_count incr_recv_count _finished_recv_count].
    rewrite Hcan.
    destruct k as [|k].
    + cbn [recv_loop run]. cbn [status_of state_of fst snd].
      destruct (m <=? _finished_recv_count s + 1) eqn:Em.
      * apply Z.leb_le in Em.
        replace ((0 <? Z.of_nat 1) && (_finished_recv_count s + Z.of_nat 1 =? m)) with true
          by (symmetry; apply andb_true_intro; split; [reflexivity|apply Z.eqb_eq; lia]).
        cbn. rewrite Hts. repeat split.
      * apply Z.leb_gt in Em.
        replace ((0 <? Z.of_nat 1) && (_finished_recv_count s + Z.of_nat 1 =? m)) with false
          by (symmetry; apply andb_false_intro2; apply Z.eqb_neq; lia).
        cbn. rewrite Hts, Hep, Hctx. repeat split.
    + assert (Em : (m <=? _finished_recv_count s + 1) = false) by (apply Z.leb_gt; lia).
      rewrite Em.
      set (s' := incr_finished_recv_count (incr_recv_count s)).
      assert (Hle' : _finished_recv_count s' + Z.of_nat (S k) <= m) by (cbn; lia).
      destruct (IH s' e ctx ts nb tag ft d m) as (H1 & H2 & H3);
        try (cbn; assumption).
      destruct (run (recv_loop h (S k) nb tag ft) s' (repeat (fun x : Endpoint => x, Completed d) (S k)))
        as [[tr2 s2] st] eqn:E.
      cbn [status_of state_of fst snd] in H1, H2, H3 |- *.
      split; [exact H1|]. split; [exact H2|].
      replace (_finished_recv_count s + Z.of_nat (S (S k)))
        with (_finished_recv_count s' + Z.of_nat (S k)) by (cbn; lia).
      replace (0 <? Z.of_nat (S (S k))) with (0 <? Z.of_nat (S k)) by reflexivity.
      exact H3.
Qed.

(** X10: after [close_after_n_recv(n)] with [n >= 1] on an open endpoint,
    the next [n - 1] completed receives leave the endpoint open, the
    [n]-th one aborts it, and a further [recv()] raises [AttributeError]. *)
Theorem close_after_n_recv_then_recv : forall h s e ctx ts (n : nat) nb tag ft d,
  _ep s = Some e -> is_alive e = true -> ep_error e = None ->
  _ctx s = Some ctx -> _tags s = Some ts -> _close_after_n_recv s = None ->
  (1 <= n)%nat ->
  let s1 := state_of (run (close_after_n_recv (Z.of_nat n) false) s []) in
  (forall k, (k < n)%nat ->
     let r := run (recv_loop h k nb tag ft) s1 (repeat (fun x => x, Completed d) k) in
     status_of r = Returned tt /\ closed (state_of r) = false) /\
  (let r := run (recv_loop h n nb tag ft) s1 (repeat (fun x => x, Completed d) n) in
   status_of r = Returned tt /\ _ep (state_of r) = None /\ _ctx (state_of r) = None /\
   forall env, status_of (run (recv h nb tag ft) (state_of r) env) = Raised AttributeError).
Proof.
  intros h s e ctx ts n nb tag ft d Hep Ha Herr Hctx Hts Hcan Hn s1.
  assert (Hs1 : s1 = set_close_after_n_recv s (Some (Z.of_nat n + _finished_recv_count s))).
  { unfold s1, close_after_n_recv. cbn. rewrite Hcan.
    replace (Z.of_nat n + _finished_recv_count s =? _finished_recv_count s) with false
      by (symmetry; apply Z.eqb_neq; lia).
    replace (_finished_recv_count s <? Z.of_nat n + _finished_recv_count s) with true
      by (symmetry; apply Z.ltb_lt; lia).
    reflexivity. }
  rewrite Hs1. clear s1 Hs1.
  set (s1 := set_close_after_n_recv s (Some (Z.of_nat n + _finished_recv_count s))).
  assert (Hep1 : _ep s1 = Some e) by exact Hep.
  assert (Hctx1 : _ctx s1 = Some ctx) by exact Hctx.
  assert (Hts1 : _tags s1 = Some ts) by exact Hts.
  assert (Hcan1 : _close_after_n_recv s1 = Some (Z.of_nat n + _finished_recv_count s)) by reflexivity.
  assert (Hfin1 : _finished_recv_count s1 = _finished_recv_count s) by reflexivity.
  split.
  - intros k Hk r.
    destruct (recv_loop_threshold h k s1 e ctx ts nb tag ft d _ Hep1 Ha Herr Hctx1 Hts1 Hcan1)
      as (H1 & _ & H3); [lia|].
    fold r in H1, H3.
    replace ((0 <? Z.of_nat k) && (_finished_recv_count s1 + Z.of_nat k =?
               Z.of_nat n + _finished_recv_count s)) with false in H3
      by (symmetry; apply andb_false_intro2; apply Z.eqb_neq; lia).
    destruct H3 as [H3 _]. split; [exact H1|]. unfold closed. rewrite H3, Ha. reflexivity.
  - intros r.
    destruct (recv_loop_threshold h n s1 e ctx ts nb tag ft d _ Hep1 Ha Herr Hctx1 Hts1 Hcan1)
      as (H1 & H2 & H3); [lia|].
    fold r in H1, H2, H3.
    replace ((0 <? Z.of_nat n) && (_finished_recv_count s1 + Z.of_nat n =?
               Z.of_nat n + _finished_recv_count s)) with true in H3
      by (symmetry; apply andb_true_intro; split; [apply Z.ltb_lt; lia | apply Z.eqb_eq; lia]).
    destruct H3 as [H3 H4]. split; [exact H1|]. split; [exact H3|]. split; [exact H4|].
    intros env. unfold recv, select_tag, tag_lookup.
    destruct tag as [t|]; [destruct ft|]; cbn; rewrite ?H2; cbn; rewrite H4; reflexivity.
Qed.

(** X11: [recv_obj] on one endpoint reads what [send_obj] writes on the other:
    [send_obj] sends the 8-byte size of [obj] and then [obj], both with
    the same wire tag; [recv_obj], given these two messages, receives on
    the matching tag (the peers' tags agree after the handshake), sizes
    its second buffer from the first message and returns [obj]. *)
Theorem send_obj_recv_obj_round_trip : forall h sA sB eA eB ctxB tA tB obj tag,
  _ep sA = Some eA -> is_alive eA = true -> ep_error eA = None -> _tags sA = Some tA ->
  _ep sB = Some eB -> is_alive eB = true -> ep_error eB = None -> _ctx sB = Some ctxB ->
  _tags sB = Some tB -> _close_after_n_recv sB = None ->
  msg_send tA = msg_recv tB ->
  Z.of_nat (length obj) < 2 ^ 64 ->
  let header := le_encode 8 (Z.of_nat (length obj)) in
  let w := match tag with
           | None => msg_send tA
           | Some t => h [HInt (msg_send tA); HInt (py_hash_int t)]
           end in
  let rA := run (send_obj h obj tag) sA
                [(fun x => x, Completed []); (fun x => x, Completed [])] in
  let rB := run (recv_obj h tag) sB
                [(fun x => x, Completed header); (fun x => x, Completed obj)] in
  trace_of rA = [EvPost (TagSend header w); EvWait; EvPost (TagSend obj w); EvWait] /\
  status_of rA = Returned tt /\
  trace_of rB = [EvPost (TagRecv 8 w); EvWait; EvPost (TagRecv (length obj) w); EvWait] /\
  status_of rB = Returned obj.
Proof.
  intros h sA sB eA eB ctxB tA tB obj tag HepA HaA HerrA HtsA HepB HaB HerrB HctxB HtsB
    HcanB Htag Hlen header w rA rB.
  assert (Hdec : Z.to_nat (le_decode header) = length obj).
  { unfold header. rewrite le_decode_encode by (change (256 ^ Z.of_nat 8) with (2 ^ 64); lia).
    apply Nat2Z.id. }
  destruct sA as [epA ctxA scA rcA frcA sdpA canA tgA]; cbn in HepA, HtsA; subst.
  destruct eA as [hdA alA erA]; cbn in HaA, HerrA; subst.
  destruct sB as [epB ctxB' scB rcB frcB sdpB canB tgB]; cbn in HepB, HctxB, HtsB, HcanB; subst.
  destruct eB as [hdB alB erB]; cbn in HaB, HerrB; subst.
  unfold rA, rB, w, send_obj, recv_obj, send, recv, ep_raise_on_error, select_tag, tag_lookup,
    send_canceled_handler.
  destruct tB as [msB mrB csB crB]; cbn in Htag; subst mrB.
  destruct tag as [t|]; cbn -[le_encode le_decode];
    (destruct (tag_probe (worker ctxB) _) eqn:Ep; cbn -[le_encode le_decode];
     rewrite ?Ep; cbn -[le_encode le_decode];
     fold header; rewrite ?Hdec; repeat split).
Qed.

(** X12: an endpoint made by [create_endpoint_from_worker_address] has no
    tags ([tags=None]): [send], [send_multi] and [recv] raise [TypeError]
    unless they are given an explicit tag with [force_tag=True], which is
    then used as it is. *)
Theorem worker_address_endpoint_needs_forced_tag : forall h ctx loop ucx_ep,
  In (progress_mode ctx) valid_progress_modes ->
  is_alive ucx_ep = true -> ep_error ucx_ep = None ->
  exists ep,
    status_of (run (create_endpoint_from_worker_address loop ucx_ep) ctx []) = Returned ep /\
    _ep ep = Some ucx_ep /\ _tags ep = None /\
    (forall buf tag ft env, tag = None \/ ft = false ->
       status_of (run (send h buf tag ft) ep env) = Raised TypeError) /\
    (forall bufs tag ft env, tag = None \/ ft = false ->
       status_of (run (send_multi h bufs tag ft) ep env) = Raised TypeError) /\
    (forall nb tag ft env, tag = None \/ ft = false ->
       status_of (run (recv h nb tag ft) ep env) = Raised TypeError) /\
    (forall buf t, trace_of (run (send h buf (Some t) true) ep []) =
                   [EvPost (TagSend buf t); EvWait]) /\
    (forall bufs t, trace_of (run (send_multi h bufs (Some t) true) ep []) =
                    [EvPost (TagSendMulti bufs t); EvWait]).
Proof.
  intros h ctx loop ucx_ep Hmode Ha Herr.
  destruct (continuous_ucx_progress_run ctx loop [] Hmode) as (task & _ & Hrun & Hrest).
  set (c1 := if loop_in_tasks loop (progress_tasks ctx) then ctx
             else with_progress_tasks ctx (progress_tasks ctx ++ [task])) in Hrun.
  exists (new_Endpoint ucx_ep c1 None).
  split.
  { unfold create_endpoint_from_worker_address. rewrite run_bind, Hrun, Hrest. reflexivity. }
  destruct ucx_ep as [hd al er]; cbn in Ha, Herr; subst.
  split; [reflexivity|]. split; [reflexivity|].
  split; [|split; [|split; [|split]]].
  - intros buf tag ft env Ht. unfold send, ep_raise_on_error, select_tag, tag_lookup.
    destruct Ht as [->| ->]; [|destruct tag]; reflexivity.
  - intros bufs tag ft env Ht. unfold send_multi, ep_raise_on_error, select_tag, tag_lookup.
    destruct Ht as [->| ->]; [|destruct tag]; reflexivity.
  - intros nb tag ft env Ht. unfold recv, select_tag, tag_lookup.
    destruct Ht as [->| ->]; [|destruct tag]; reflexivity.
  - intros buf t. reflexivity.
  - intros bufs t. reflexivity.
Qed.


Lemma check_progress_mode_result_witness :
  let env := [("UCXPY_PROGRESS_MODE"%string, "polling"%string)] in
  _check_progress_mode PyNone env = Some "polling"%string /\
  In "polling"%string valid_progress_modes /\
  (PyNone = PyStr "polling" \/
   (PyNone = PyNone /\
    (assoc_lookup "UCXPY_PROGRESS_MODE" env = Some "polling"%string \/
     (assoc_lookup "UCXPY_PROGRESS_MODE" env = None /\ "polling"%string = "thread"%string)))) /\
  (forall c loop, progress_mode c = "polling"%string ->
     status_of (run (continuous_ucx_progress loop) c []) = Returned tt).
Proof.
  intros env.
  assert (H : _check_progress_mode PyNone env = Some "polling"%string) by reflexivity.
  split; [exact H|].
  exact (check_progress_mode_result PyNone env "polling"%string H).
Defined.

Lemma stop_after_start_notifier_thread_noop_witness :
  let c := mk_ApplicationContext [] "thread" None None (mk_UCXWorker [] true) in
  notifier_thread c = None /\
  let c1 := state_of (run start_notifier_thread c []) in
  notifier_thread c1 = None /\ run stop_notifier_thread c1 [] = ([], c1, Returned tt).
Proof.
  intros c.
  assert (H : notifier_thread c = None) by reflexivity.
  split; [exact H|].
  exact (stop_after_start_notifier_thread_noop c H).
Defined.

Lemma notifier_thread_stop_iteration_witness :
  let pre := [(WaitReady, []); (WaitTimeout, []); (WaitReady, [])] in
  Forall (fun it => fst it <> WaitShutdown /\ snd it = []) pre /\
  (WaitReady = WaitShutdown /\ ["shutdown"%string] = [] \/
   ["shutdown"%string] = ["shutdown"%string]) /\
  _notifierThread (pre ++ (WaitReady, ["shutdown"%string]) :: [(WaitReady, [])]) [] false 0
    = Some (0 + count_ready pre, [])%nat /\
  _notifierThread pre [] false 0 = None.
Proof.
  intros pre.
  assert (H1 : Forall (fun it => fst it <> WaitShutdown /\ snd it = []) pre)
    by (repeat constructor; discriminate).
  assert (H2 : WaitReady = WaitShutdown /\ ["shutdown"%string] = [] \/
               ["shutdown"%string] = ["shutdown"%string]) by (right; reflexivity).
  split; [exact H1|]. split; [exact H2|].
  exact (notifier_thread_stop_iteration pre WaitReady ["shutdown"%string]
           [(WaitReady, [])] 0 H1 H2).
Defined.

Lemma notifier_thread_one_message_per_iteration_witness :
  let q := ["flush"%string; "ping"%string] in
  let pre := [(WaitReady, []); (WaitTimeout, [])] in
  Forall (fun x => x <> "shutdown"%string) q /\
  length pre = length q /\
  Forall (fun it => fst it <> WaitShutdown /\ snd it = []) pre /\
  _notifierThread (pre ++ (WaitReady, []) :: []) (q ++ ["shutdown"%string]) false 0
    = Some (0 + count_ready pre, [])%nat.
Proof.
  intros q pre.
  assert (H1 : Forall (fun x => x <> "shutdown"%string) q)
    by (repeat constructor; discriminate).
  assert (H2 : length pre = length q) by reflexivity.
  assert (H3 : Forall (fun it => fst it <> WaitShutdown /\ snd it = []) pre)
    by (repeat constructor; discriminate).
  split; [exact H1|]. split; [exact H2|]. split; [exact H3|].
  exact (notifier_thread_one_message_per_iteration q pre WaitReady [] 0 H1 H2 H3).
Defined.


Lemma exchange_peer_info_struct_error_witness :
  ~ (0 <= -1 < 2 ^ 64 /\ 0 <= 5 < 2 ^ 64) /\
  run (@exchange_peer_info sample_hash64bits unit (-1) 5 true) tt [] = ([], tt, Raised StructError).
Proof.
  assert (H : ~ (0 <= -1 < 2 ^ 64 /\ 0 <= 5 < 2 ^ 64)) by lia.
  split; [exact H|].
  exact (exchange_peer_info_struct_error sample_hash64bits unit tt (-1) 5 true [] H).
Defined.

Lemma continuous_ucx_progress_two_loops_witness :
  In (progress_mode sample_ctx) valid_progress_modes /\
  let r1 := run (continuous_ucx_progress 0%nat) sample_ctx [] in
  let r2 := run (continuous_ucx_progress 1%nat) (state_of r1) [] in
  status_of r1 = Returned tt /\ status_of r2 = Returned tt /\
  loop_in_tasks 0%nat (progress_tasks (state_of r2)) = true /\
  loop_in_tasks 1%nat (progress_tasks (state_of r2)) = true /\
  exists added, progress_tasks (state_of r2) = progress_tasks sample_ctx ++ added /\
                (length added <= 2)%nat.
Proof.
  assert (H : In (progress_mode sample_ctx) valid_progress_modes) by (cbn; tauto).
  split; [exact H|].
  exact (continuous_ucx_progress_two_loops sample_ctx 0%nat 1%nat H).
Defined.

Lemma close_after_n_recv_then_recv_witness :
  _ep sample_endpoint = Some sample_ucx_ep /\ is_alive sample_ucx_ep = true /\
  ep_error sample_ucx_ep = None /\ _ctx sample_endpoint = Some sample_ctx /\
  _tags sample_endpoint = Some sample_tags /\ _close_after_n_recv sample_endpoint = None /\
  (1 <= 2)%nat /\
  let s1 := state_of (run (close_after_n_recv (Z.of_nat 2) false) sample_endpoint []) in
  (forall k, (k < 2)%nat ->
     let r := run (recv_loop sample_hash64bits k 4 None false) s1
                  (repeat (fun x => x, Completed [1; 2; 3; 4]) k) in
     status_of r = Returned tt /\ closed (state_of r) = false) /\
  (let r := run (recv_loop sample_hash64bits 2 4 None false) s1
                (repeat (fun x => x, Completed [1; 2; 3; 4]) 2) in
   status_of r = Returned tt /\ _ep (state_of r) = None /\ _ctx (state_of r) = None /\
   forall env, status_of (run (recv sample_hash64bits 4 None false) (state_of r) env)
               = Raised AttributeError).
Proof.
  assert (H1 : _ep sample_endpoint = Some sample_ucx_ep) by reflexivity.
  assert (H2 : is_alive sample_ucx_ep = true) by reflexivity.
  assert (H3 : ep_error sample_ucx_ep = None) by reflexivity.
  assert (H4 : _ctx sample_endpoint = Some sample_ctx) by reflexivity.
  assert (H5 : _tags sample_endpoint = Some sample_tags) by reflexivity.
  assert (H6 : _close_after_n_recv sample_endpoint = None) by reflexivity.
  assert (H7 : (1 <= 2)%nat) by lia.
  split; [exact H1|]. split; [exact H2|]. split; [exact H3|]. split; [exact H4|].
  split; [exact H5|]. split; [exact H6|]. split; [exact H7|].
  exact (close_after_n_recv_then_recv sample_hash64bits sample_endpoint sample_ucx_ep
           sample_ctx sample_tags 2 4 None false [1; 2; 3; 4] H1 H2 H3 H4 H5 H6 H7).
Defined.

Lemma send_obj_recv_obj_round_trip_witness :
  let sB := new_Endpoint sample_ucx_ep sample_ctx (Some (mk_tag_set 22 11 44 33)) in
  let obj := [104; 105] in
  _ep sample_endpoint = Some sample_ucx_ep /\ is_alive sample_ucx_ep = true /\
  ep_error sample_ucx_ep = None /\ _tags sample_endpoint = Some sample_tags /\
  _ep sB = Some sample_ucx_ep /\ _ctx sB = Some sample_ctx /\
  _tags sB = Some (mk_tag_set 22 11 44 33) /\ _close_after_n_recv sB = None /\
  msg_send sample_tags = msg_recv (mk_tag_set 22 11 44 33) /\
  Z.of_nat (length obj) < 2 ^ 64 /\
  let header := le_encode 8 (Z.of_nat (length obj)) in
  let w := match Some 7 with
           | None => msg_send sample_tags
           | Some t => sample_hash64bits [HInt (msg_send sample_tags); HInt (py_hash_int t)]
           end in
  let rA := run (send_obj sample_hash64bits obj (Some 7)) sample_endpoint
                [(fun x => x, Completed []); (fun x => x, Completed [])] in
  let rB := run (recv_obj sample_hash64bits (Some 7)) sB
                [(fun x => x, Completed header); (fun x => x, Completed obj)] in
  trace_of rA = [EvPost (TagSend header w); EvWait; EvPost (TagSend obj w); EvWait] /\
  status_of rA = Returned tt /\
  trace_of rB = [EvPost (TagRecv 8 w); EvWait; EvPost (TagRecv (length obj) w); EvWait] /\
  status_of rB = Returned obj.
Proof.
  intros sB obj.
  assert (H1 : _ep sample_endpoint = Some sample_ucx_ep) by reflexivity.
  assert (H2 : is_alive sample_ucx_ep = true) by reflexivity.
  assert (H3 : ep_error sample_ucx_ep = None) by reflexivity.
  assert (H4 : _tags sample_endpoint = Some sample_tags) by reflexivity.
  assert (H5 : _ep sB = Some sample_ucx_ep) by reflexivity.
  assert (H6 : _ctx sB = Some sample_ctx) by reflexivity.
  assert (H7 : _tags sB = Some (mk_tag_set 22 11 44 33)) by reflexivity.
  assert (H8 : _close_after_n_recv sB = None) by reflexivity.
  assert (H9 : msg_send sample_tags = msg_recv (mk_tag_set 22 11 44 33)) by reflexivity.
  assert (H10 : Z.of_nat (length obj) < 2 ^ 64) by (cbn; lia).
  split; [exact H1|]. split; [exact H2|]. split; [exact H3|]. split; [exact H4|].
  split; [exact H5|]. split; [exact H6|]. split; [exact H7|]. split; [exact H8|].
  split; [exact H9|]. split; [exact H10|].
  exact (send_obj_recv_obj_round_trip sample_hash64bits sample_endpoint sB sample_ucx_ep
           sample_ucx_ep sample_ctx sample_tags (mk_tag_set 22 11 44 33) obj (Some 7)
           H1 H2 H3 H4 H5 H2 H3 H6 H7 H8 H9 H10).
Defined.

Lemma worker_address_endpoint_needs_forced_tag_witness :
  In (progress_mode sample_ctx) valid_progress_modes /\
  is_alive sample_ucx_ep = true /\ ep_error sample_ucx_ep = None /\
  exists ep,
    status_of (run (create_endpoint_from_worker_address 0%nat sample_ucx_ep) sample_ctx [])
      = Returned ep /\
    _ep ep = Some sample_ucx_ep /\ _tags ep = None /\
    (forall buf tag ft env, tag = None \/ ft = false ->
       status_of (run (send sample_hash64bits buf tag ft) ep env) = Raised TypeError) /\
    (forall bufs tag ft env, tag = None \/ ft = false ->
       status_of (run (send_multi sample_hash64bits bufs tag ft) ep env) = Raised TypeError) /\
    (forall nb tag ft env, tag = None \/ ft = false ->
       status_of (run (recv sample_hash64bits nb tag ft) ep env) = Raised TypeError) /\
    (forall buf t, trace_of (run (send sample_hash64bits buf (Some t) true) ep []) =
                   [EvPost (TagSend buf t); EvWait]) /\
    (forall bufs t, trace_of (run (send_multi sample_hash64bits bufs (Some t) true) ep []) =
                    [EvPost (TagSendMulti bufs t); EvWait]).
Proof.
  assert (H1 : In (progress_mode sample_ctx) valid_progress_modes) by (cbn; tauto).
  assert (H2 : is_alive sample_ucx_ep = true) by reflexivity.
  assert (H3 : ep_error sample_ucx_ep = None) by reflexivity.
  split; [exact H1|]. split; [exact H2|]. split; [exact H3|].
  exact (worker_address_endpoint_needs_forced_tag sample_hash64bits sample_ctx 0%nat
           sample_ucx_ep H1 H2 H3).
Defined.

